(** * SulvionPiGUI: grid placement, drag/resize snapping and the debug overlay

    A shallow embedding of [SulvionPiGUI/core/grid.py], of the widget
    factories and gesture handlers of [SulvionPiGUI/core/app.py] and of
    [DebugLayer._actual_draw] of [SulvionPiGUI/core/debug.py], with the
    properties of the written specification stated and settled against it;
    then the filter of [App.number], the binding calls of
    [App.make_draggable] and the alignment table of
    [SulvionPiGUI/backend/customtk.py], with properties of their own.

    Python values are modelled as the interpreter has them: [int] is [Z],
    [float] is the IEEE-754 binary64 type [float] of the kernel, a raised
    exception is an error result.  The UI toolkit (customtkinter) is an
    external collaborator: the handlers are written against an interface of
    the calls they make, and every call that changes the widget is recorded
    in a log. *)

From Stdlib Require Import ZArith List Bool String Lia.
From Stdlib Require Import Floats DecimalString.
From Stdlib Require DecimalPos DecimalZ.
Import ListNotations.

Local Open Scope Z_scope.

Set Warnings "-inexact-float".

(** ** Python values and exceptions *)

(** The exceptions the modelled code can raise.  [ProviderError] stands for
    whatever the scaling provider raises when it cannot answer. *)
Inductive exn : Type :=
| ValueError
| OverflowError
| ZeroDivisionError
| IndexError
| ProviderError.

Inductive result (A : Type) : Type :=
| Ok (a : A)
| Raise (e : exn).
Arguments Ok {A} a.
Arguments Raise {A} e.

Definition rbind {A B} (r : result A) (k : A -> result B) : result B :=
  match r with
  | Ok a => k a
  | Raise e => Raise e
  end.

Notation "'let?' x ':=' e 'in' k" := (rbind e (fun x => k))
  (at level 10, x pattern, e at level 100, k at level 200, only parsing).

(** A value that is an [int] or a [float]. *)
Inductive num : Type :=
| PyInt (z : Z)
| PyFloat (f : float).

(** [l[i]]: [IndexError] past the end. *)
Definition index {A} (l : list A) (i : nat) : result A :=
  match nth_error l i with
  | Some a => Ok a
  | None => Raise IndexError
  end.

(** [[f(a) for a in l]], stopping at the first exception. *)
Fixpoint comprehension {A B} (f : A -> result B) (l : list A) : result (list B) :=
  match l with
  | [] => Ok []
  | a :: l' =>
      let? b := f a in
      let? bs := comprehension f l' in
      Ok (b :: bs)
  end.

(** [range(n)]: empty when [n <= 0]. *)
Definition range (n : Z) : list Z :=
  map Z.of_nat (seq 0 (Z.to_nat n)).

(** The built-in numeric operations, as the interpreter carries them out. *)
Module Py.

(** The sign-carrying integer [(-1)^s * m]. *)
Definition signed (s : bool) (m : positive) : Z :=
  if s then Z.neg m else Z.pos m.

(** [float(z)]: the nearest binary64 (ties to even), [OverflowError] when
    the integer is too large for one. *)
Definition float_of_int (z : Z) : result float :=
  match binary_normalize prec emax z 0 false with
  | S754_infinity _ => Raise OverflowError
  | sf => Ok (SF2Prim sf)
  end.

Definition to_float (a : num) : result float :=
  match a with
  | PyInt z => float_of_int z
  | PyFloat f => Ok f
  end.

(** [int(f)] for a float: truncation toward zero. *)
Definition trunc_float (f : float) : result Z :=
  match Prim2SF f with
  | S754_zero _ => Ok 0
  | S754_nan => Raise ValueError
  | S754_infinity _ => Raise OverflowError
  | S754_finite s m e =>
      Ok (if 0 <=? e then signed s m * 2 ^ e
          else Z.quot (signed s m) (2 ^ (- e)))
  end.

(** [int(a)]. *)
Definition int (a : num) : result Z :=
  match a with
  | PyInt z => Ok z
  | PyFloat f => trunc_float f
  end.

(** Nearest integer to [m / d] for [m >= 0] and [d > 0], ties to even. *)
Definition div_half_even (m d : Z) : Z :=
  let q := m / d in
  let r := m mod d in
  match 2 * r ?= d with
  | Lt => q
  | Gt => q + 1
  | Eq => if Z.even q then q else q + 1
  end.

(** [round(f)] for a float, with no [ndigits]: the nearest integer, ties
    to even. *)
Definition round_float (f : float) : result Z :=
  match Prim2SF f with
  | S754_zero _ => Ok 0
  | S754_nan => Raise ValueError
  | S754_infinity _ => Raise OverflowError
  | S754_finite s m e =>
      let n := if 0 <=? e then Z.pos m * 2 ^ e
               else div_half_even (Z.pos m) (2 ^ (- e)) in
      Ok (if s then - n else n)
  end.


(** Exact comparison of a float with an integer, as the interpreter does
    it; [None] when the float is a NaN. *)
Definition compare_float_int (f : float) (z : Z) : option comparison :=
  match Prim2SF f with
  | S754_nan => None
  | S754_zero _ => Some (0 ?= z)
  | S754_infinity s => Some (if s then Lt else Gt)
  | S754_finite s m e =>
      Some (if 0 <=? e then signed s m * 2 ^ e ?= z
            else signed s m ?= z * 2 ^ (- e))
  end.

Definition compare_float (f g : float) : option comparison :=
  match PrimFloat.compare f g with
  | FEq => Some Eq
  | FLt => Some Lt
  | FGt => Some Gt
  | FNotComparable => None
  end.

Definition compare (a b : num) : option comparison :=
  match a, b with
  | PyInt x, PyInt y => Some (x ?= y)
  | PyFloat f, PyInt y => compare_float_int f y
  | PyInt x, PyFloat g => option_map CompOpp (compare_float_int g x)
  | PyFloat f, PyFloat g => compare_float f g
  end.

(** [a > b] and [a <= b]. *)
Definition gtb (a b : num) : bool :=
  match compare a b with Some Gt => true | _ => false end.

Definition leb (a b : num) : bool :=
  match compare a b with Some Lt | Some Eq => true | _ => false end.

(** [max(a, b)] with two positional arguments: the first is kept unless
    the second compares greater. *)
Definition max (a b : num) : num :=
  if gtb b a then b else a.

(** [abs(a)]. *)
Definition abs (a : num) : num :=
  match a with
  | PyInt z => PyInt (Z.abs z)
  | PyFloat f => PyFloat (PrimFloat.abs f)
  end.

(** Binary arithmetic: [int] with [int] stays exact, anything else is
    carried out on floats after converting the integer operand. *)
Definition arith (zop : Z -> Z -> Z) (fop : float -> float -> float)
  (a b : num) : result num :=
  match a, b with
  | PyInt x, PyInt y => Ok (PyInt (zop x y))
  | _, _ =>
      let? fa := to_float a in
      let? fb := to_float b in
      Ok (PyFloat (fop fa fb))
  end.

Definition add : num -> num -> result num := arith Z.add PrimFloat.add.
Definition mul : num -> num -> result num := arith Z.mul PrimFloat.mul.

(** [a / b] where the divisor is a float: [ZeroDivisionError] on a zero
    divisor, infinities and NaNs otherwise pass through silently. *)
Definition truediv (a : num) (b : float) : result float :=
  let? fa := to_float a in
  if PrimFloat.is_zero b then Raise ZeroDivisionError
  else Ok (PrimFloat.div fa b).

(** [f / z] for a float [f] and an integer [z]. *)
Definition truediv_int (f : float) (z : Z) : result float :=
  let? fz := float_of_int z in
  if PrimFloat.is_zero fz then Raise ZeroDivisionError
  else Ok (PrimFloat.div f fz).

(** [str(z)] for an integer. *)
Definition str (z : Z) : string :=
  NilZero.string_of_int (Z.to_int z).

End Py.

(** ** [core/grid.py]: GridSystem *)

Module GridSystem.

(** The only attribute is the grid-to-pixel factor, annotated [int]. *)
Record t : Type := { gtp : Z }.

(** [GridSystem.__init__]: stores [gtp] as given. *)
Definition init (gtp : Z) : t := {| gtp := gtp |}.

(** [GridSystem.to_pixels]: [int(grid_pos[i] * self.gtp)] per axis. *)
Definition to_pixels (self : t) (grid_pos : list num) : result (Z * Z) :=
  let? g0 := index grid_pos 0 in
  let? p0 := Py.mul g0 (PyInt (gtp self)) in
  let? px_x := Py.int p0 in
  let? g1 := index grid_pos 1 in
  let? p1 := Py.mul g1 (PyInt (gtp self)) in
  let? px_y := Py.int p1 in
  Ok (px_x, px_y).

(** [GridSystem.dim_to_pixels]: the same rule for a width and a height. *)
Definition dim_to_pixels (self : t) (grid_dim : list num) : result (Z * Z) :=
  let? g0 := index grid_dim 0 in
  let? p0 := Py.mul g0 (PyInt (gtp self)) in
  let? px_w := Py.int p0 in
  let? g1 := index grid_dim 1 in
  let? p1 := Py.mul g1 (PyInt (gtp self)) in
  let? px_h := Py.int p1 in
  Ok (px_w, px_h).

(** [GridSystem.get_window_size]. *)
Definition get_window_size (self : t) (size_grid : list num) : result (Z * Z) :=
  dim_to_pixels self size_grid.

End GridSystem.

(** ** The toolkit, as the handlers of [core/app.py] use it *)

(** A pointer event: the pointer's position in root (screen) coordinates. *)
Record Event : Type := { x_root : Z; y_root : Z }.

(** The calls a handler makes on one widget.  [T] is the toolkit's own state
    (window, widget geometry, display), of which the handlers know nothing
    but what these calls answer.  The widget is taken to exist: of these
    calls only the scaling query can raise. *)
Class Toolkit (T : Type) : Type := {
  (** [ctk.ScalingTracker.get_window_scaling(root)]; it may raise. *)
  get_window_scaling : T -> result float;
  (** [widget.winfo_x()] and the like: physical pixels. *)
  winfo_x : T -> Z;
  winfo_y : T -> Z;
  winfo_width : T -> Z;
  winfo_height : T -> Z;
  (** [widget.place(x=, y=)] and [widget.configure(width=, height=)]. *)
  place : num -> num -> T -> T;
  configure : num -> num -> T -> T;
  (** [root.tk.call('raise', widget._w)], inside [try: ... except: pass]. *)
  lift : T -> T;
  (** [root.update_idletasks()]. *)
  update_idletasks : T -> T;
  (** [widget.invoke], when the widget has the attribute. *)
  invoke : option (T -> T)
}.

(** What a handler did to the widget, in order. *)
Inductive call : Type :=
| Place (x y : num)
| Configure (width height : num)
| Lift
| UpdateIdletasks
| Invoke.

(** A handler runs on its closure's [state] dictionary [S], the toolkit and
    the log; an exception leaves what was written before it in place. *)
Record Ctx (S T : Type) : Type := {
  state : S;
  tk : T;
  log : list call
}.
Arguments state {S T} c.
Arguments tk {S T} c.
Arguments log {S T} c.

Definition M (S T A : Type) : Type := Ctx S T -> result A * Ctx S T.

Definition ret {S T A} (a : A) : M S T A := fun c => (Ok a, c).

Definition bind {S T A B} (m : M S T A) (k : A -> M S T B) : M S T B :=
  fun c =>
    match m c with
    | (Ok a, c') => k a c'
    | (Raise e, c') => (Raise e, c')
    end.

Declare Scope handler_scope.
Delimit Scope handler_scope with handler.
Notation "x <- m ;; k" := (bind m (fun x => k))
  (at level 61, m at next level, right associativity) : handler_scope.
Notation "m ;; k" := (bind m (fun _ => k))
  (at level 61, right associativity) : handler_scope.

(** A pure computation that may raise. *)
Definition eval {S T A} (r : result A) : M S T A := fun c => (r, c).

(** [state[...]], [state[...] = v]. *)
Definition get {S T} : M S T S := fun c => (Ok (state c), c).

Definition modify {S T} (f : S -> S) : M S T unit :=
  fun c => (Ok tt, {| state := f (state c); tk := tk c; log := log c |}).

(** A query of the toolkit. *)
Definition ask {S T A} (q : T -> A) : M S T A := fun c => (Ok (q (tk c)), c).

Definition ask_scaling {S T} `{Toolkit T} : M S T float :=
  fun c => (get_window_scaling (tk c), c).

(** A call that changes the widget, recorded in the log. *)
Definition command {S T} (what : call) (f : T -> T) : M S T unit :=
  fun c => (Ok tt, {| state := state c; tk := f (tk c); log := log c ++ [what] |}).

(** ** [core/app.py]: App *)

Module App.

(** The attributes [App.__init__] sets that the modelled methods read, and
    the window size it hands to the backend. *)
Record t : Type := {
  size_grid : list Z;
  gtp : Z;
  grid_system : GridSystem.t;
  window : Z * Z
}.

(** [App.__init__], up to the creation of the backend window: [size] may
    hold floats, [gtp] is annotated [int]. *)
Definition init (size : list num) (gtp : Z) : result t :=
  let? size_grid := comprehension Py.int size in
  let? gtp' := Py.int (PyInt gtp) in
  let grid_system := GridSystem.init gtp in
  let? wh := GridSystem.get_window_size grid_system size in
  Ok {| size_grid := size_grid; gtp := gtp';
        grid_system := grid_system; window := wh |}.

(** The pixel geometry a widget is created with: what a factory passes to
    the widget's constructor, which passes it on to the backend's
    [create_...(x, y, w, h, ...)] unchanged. *)
Record Geometry : Type := { x : Z; y : Z; w : Z; h : Z }.

(** [App.btn]: the geometry of the created button (text, callback and font
    take no part in it). *)
Definition btn (self : t) (pos size : list num) : result Geometry :=
  let? pos := comprehension Py.int pos in
  let? size := comprehension Py.int size in
  let? px_pos := GridSystem.to_pixels (grid_system self) (map PyInt pos) in
  let? px_size := GridSystem.dim_to_pixels (grid_system self) (map PyInt size) in
  Ok {| x := fst px_pos; y := snd px_pos; w := fst px_size; h := snd px_size |}.

(** [App.label]; [input], [dropdown], [slider], [image], [plot] and [table]
    compute their geometry by the same four lines. *)
Definition label (self : t) (pos size : list num) : result Geometry :=
  let? pos := comprehension Py.int pos in
  let? size := comprehension Py.int size in
  let? px_pos := GridSystem.to_pixels (grid_system self) (map PyInt pos) in
  let? px_size := GridSystem.dim_to_pixels (grid_system self) (map PyInt size) in
  Ok {| x := fst px_pos; y := snd px_pos; w := fst px_size; h := snd px_size |}.

(** The logical delta of a move event, per axis:
    [(event.x_root - state["start_root_x"]) / scaling]. *)
Definition delta (pointer start : Z) (scaling : float) : result float :=
  Py.truediv (PyInt (pointer - start)) scaling.

(** [round(curr / self.gtp)] for a length in logical pixels. *)
Definition to_grid (self : t) (curr : float) : result Z :=
  let? q := Py.truediv_int curr (gtp self) in
  Py.round_float q.

(** *** [App.make_draggable] *)

Module make_draggable.

(** The [state] dictionary of the closures.  The key ["scaling"] is absent
    until the first press stores it. *)
Record State : Type := {
  start_root_x : Z;
  start_root_y : Z;
  scaling : option float;
  start_w_x : num;
  start_w_y : num;
  moved : bool
}.

Definition state0 : State :=
  {| start_root_x := 0; start_root_y := 0; scaling := None;
     start_w_x := PyInt 0; start_w_y := PyInt 0; moved := false |}.

Definition set_start_root_x (v : Z) (s : State) : State :=
  {| start_root_x := v; start_root_y := start_root_y s; scaling := scaling s;
     start_w_x := start_w_x s; start_w_y := start_w_y s; moved := moved s |}.

Definition set_start_root_y (v : Z) (s : State) : State :=
  {| start_root_x := start_root_x s; start_root_y := v; scaling := scaling s;
     start_w_x := start_w_x s; start_w_y := start_w_y s; moved := moved s |}.

Definition set_scaling (v : float) (s : State) : State :=
  {| start_root_x := start_root_x s; start_root_y := start_root_y s;
     scaling := Some v;
     start_w_x := start_w_x s; start_w_y := start_w_y s; moved := moved s |}.

Definition set_start_w_x (v : num) (s : State) : State :=
  {| start_root_x := start_root_x s; start_root_y := start_root_y s;
     scaling := scaling s;
     start_w_x := v; start_w_y := start_w_y s; moved := moved s |}.

Definition set_start_w_y (v : num) (s : State) : State :=
  {| start_root_x := start_root_x s; start_root_y := start_root_y s;
     scaling := scaling s;
     start_w_x := start_w_x s; start_w_y := v; moved := moved s |}.

Definition set_moved (v : bool) (s : State) : State :=
  {| start_root_x := start_root_x s; start_root_y := start_root_y s;
     scaling := scaling s;
     start_w_x := start_w_x s; start_w_y := start_w_y s; moved := v |}.

(** [state.get("scaling", 1.0)]. *)
Definition get_scaling (s : State) : float :=
  match scaling s with
  | Some v => v
  | None => 1%float
  end.

(** [abs(dx) > 3 or abs(dy) > 3]. *)
Definition beyond_threshold (dx dy : float) : bool :=
  Py.gtb (Py.abs (PyFloat dx)) (PyInt 3) || Py.gtb (Py.abs (PyFloat dy)) (PyInt 3).

Section Handlers.

Context {T : Type} `{Toolkit T}.
Variable self : t.

Local Open Scope handler_scope.

(** [on_press]. *)
Definition on_press (event : Event) : M State T unit :=
  modify (set_start_root_x (x_root event)) ;;
  modify (set_start_root_y (y_root event)) ;;
  v <- ask_scaling ;;
  modify (set_scaling v) ;;
  st <- get ;;
  let scaling := get_scaling st in
  wx <- ask winfo_x ;;
  sx <- eval (Py.truediv (PyInt wx) scaling) ;;
  modify (set_start_w_x (PyFloat sx)) ;;
  wy <- ask winfo_y ;;
  sy <- eval (Py.truediv (PyInt wy) scaling) ;;
  modify (set_start_w_y (PyFloat sy)) ;;
  modify (set_moved false) ;;
  command Lift lift.

(** [on_motion]. *)
Definition on_motion (event : Event) : M State T unit :=
  st <- get ;;
  let scaling := get_scaling st in
  dx <- eval (delta (x_root event) (start_root_x st) scaling) ;;
  dy <- eval (delta (y_root event) (start_root_y st) scaling) ;;
  (if beyond_threshold dx dy then modify (set_moved true) else ret tt) ;;
  new_x <- eval (Py.add (start_w_x st) (PyFloat dx)) ;;
  new_y <- eval (Py.add (start_w_y st) (PyFloat dy)) ;;
  command (Place new_x new_y) (place new_x new_y) ;;
  command UpdateIdletasks update_idletasks.

(** [on_release]. *)
Definition on_release (event : Event) : M State T unit :=
  st <- get ;;
  if negb (moved st) then
    match invoke with
    | Some f => command Invoke f
    | None => ret tt
    end
  else
    scaling <- ask_scaling ;;
    wx <- ask winfo_x ;;
    curr_x <- eval (Py.truediv (PyInt wx) scaling) ;;
    wy <- ask winfo_y ;;
    curr_y <- eval (Py.truediv (PyInt wy) scaling) ;;
    grid_x <- eval (to_grid self curr_x) ;;
    grid_y <- eval (to_grid self curr_y) ;;
    let px := PyInt (grid_x * gtp self) in
    let py := PyInt (grid_y * gtp self) in
    command (Place px py) (place px py).

End Handlers.

End make_draggable.

(** *** [App.make_resizable] *)

Module make_resizable.

(** The [state] dictionary of the closures of the handle. *)
Record State : Type := {
  start_root_x : Z;
  start_root_y : Z;
  start_w : num;
  start_h : num
}.

Definition state0 : State :=
  {| start_root_x := 0; start_root_y := 0;
     start_w := PyInt 0; start_h := PyInt 0 |}.

Definition set_start_root (ex ey : Z) (s : State) : State :=
  {| start_root_x := ex; start_root_y := ey;
     start_w := start_w s; start_h := start_h s |}.

Definition set_start_size (sw sh : num) (s : State) : State :=
  {| start_root_x := start_root_x s; start_root_y := start_root_y s;
     start_w := sw; start_h := sh |}.

Section Handlers.

Context {T : Type} `{Toolkit T}.
Variable self : t.

Local Open Scope handler_scope.

(** [on_press]: each pair is assigned at once, after both of its values
    have been computed. *)
Definition on_press (event : Event) : M State T unit :=
  modify (set_start_root (x_root event) (y_root event)) ;;
  scaling <- ask_scaling ;;
  ww <- ask winfo_width ;;
  sw <- eval (Py.truediv (PyInt ww) scaling) ;;
  wh <- ask winfo_height ;;
  sh <- eval (Py.truediv (PyInt wh) scaling) ;;
  modify (set_start_size (PyFloat sw) (PyFloat sh)) ;;
  command Lift lift.

(** [max(self.gtp, start + d)]. *)
Definition clamp_size (start : num) (d : float) : result num :=
  let? v := Py.add start (PyFloat d) in
  Ok (Py.max (PyInt (gtp self)) v).

(** [on_motion]. *)
Definition on_motion (event : Event) : M State T unit :=
  scaling <- ask_scaling ;;
  st <- get ;;
  dx <- eval (delta (x_root event) (start_root_x st) scaling) ;;
  dy <- eval (delta (y_root event) (start_root_y st) scaling) ;;
  new_w <- eval (clamp_size (start_w st) dx) ;;
  new_h <- eval (clamp_size (start_h st) dy) ;;
  command (Configure new_w new_h) (configure new_w new_h).

(** [max(1, round(curr / self.gtp))]. *)
Definition to_grid_size (curr : float) : result Z :=
  let? g := to_grid self curr in
  Ok (Z.max 1 g).

(** [on_release]. *)
Definition on_release (event : Event) : M State T unit :=
  scaling <- ask_scaling ;;
  ww <- ask winfo_width ;;
  curr_w <- eval (Py.truediv (PyInt ww) scaling) ;;
  wh <- ask winfo_height ;;
  curr_h <- eval (Py.truediv (PyInt wh) scaling) ;;
  grid_w <- eval (to_grid_size curr_w) ;;
  grid_h <- eval (to_grid_size curr_h) ;;
  let pw := PyInt (grid_w * gtp self) in
  let ph := PyInt (grid_h * gtp self) in
  command (Configure pw ph) (configure pw ph).

End Handlers.

End make_resizable.

End App.

(** Short names for the two groups of closures. *)
Module Drag := App.make_draggable.
Module Resize := App.make_resizable.

(** ** Gestures: the event loop delivering pointer events to the handlers *)

(** What happens to a widget between two looks at it: a pointer event bound
    to one of the three handlers, or a change of the toolkit's state from
    outside the handlers (the display scaling changes, the provider starts
    or stops answering). *)
Inductive input (T : Type) : Type :=
| Press (e : Event)
| Motion (e : Event)
| Release (e : Event)
| External (f : T -> T).
Arguments Press {T} e.
Arguments Motion {T} e.
Arguments Release {T} e.
Arguments External {T} f.

Section Gestures.

Context {T : Type} `{Toolkit T}.
Variable self : App.t.

Definition external {S} (f : T -> T) : M S T unit :=
  fun c => (Ok tt, {| state := state c; tk := f (tk c); log := log c |}).

Definition drag_dispatch (i : input T) : M Drag.State T unit :=
  match i with
  | Press e => Drag.on_press e
  | Motion e => Drag.on_motion e
  | Release e => Drag.on_release self e
  | External f => external f
  end.

Definition resize_dispatch (i : input T) : M Resize.State T unit :=
  match i with
  | Press e => Resize.on_press e
  | Motion e => Resize.on_motion self e
  | Release e => Resize.on_release self e
  | External f => external f
  end.

(** The event loop runs one callback after the other; an exception raised
    by a callback ends that callback only. *)
Definition run {S} (dispatch : input T -> M S T unit)
  (inputs : list (input T)) (c : Ctx S T) : Ctx S T :=
  fold_left (fun c i => snd (dispatch i c)) inputs c.

End Gestures.

(** ** [core/debug.py]: DebugLayer *)

Module DebugLayer.

Record t : Type := {
  grid_system : GridSystem.t;
  size_grid : list Z;
  bgcolor : option string;
  lncolor : string;
  txtcolor : string;
  show_coords : bool
}.

(** What the toolkit answers during one draw: the scaling query (it may
    raise), the appearance mode, and the size of the canvas once placed. *)
Record Host : Type := {
  scaling_answer : result float;
  appearance_mode : string;
  canv_w : Z;
  canv_h : Z
}.

(** [canvas.create_line(x0, y0, x1, y1, fill=, dash=(2, 4))] and
    [canvas.create_text(x, y, text=, anchor="nw", fill=, font=("Arial", size))]. *)
Inductive item : Type :=
| Line (x0 y0 x1 y1 : num) (fill : string)
| Text (x y : num) (text fill : string) (font_size : Z).

(** The canvas a draw leaves behind: the size asked of the backend, the
    background, and the items in drawing order. *)
Record Canvas : Type := {
  width : Z;
  height : Z;
  bg : string;
  items : list item
}.

(** The [try: ... except: scaling = 1.0] around the scaling query. *)
Definition scaling_or_default (answer : result float) : float :=
  match answer with
  | Ok s => s
  | Raise _ => 1%float
  end.

(** [gtp = self.grid_system.gtp * scaling]: the spacing in physical pixels. *)
Definition spacing (self : t) (scaling : float) : result float :=
  let? g := Py.mul (PyInt (GridSystem.gtp (grid_system self))) (PyFloat scaling) in
  Py.to_float g.

(** [int(extent / gtp) + 1]. *)
Definition num_lines (extent : Z) (gtp : float) : result Z :=
  let? q := Py.truediv (PyInt extent) gtp in
  let? n := Py.trunc_float q in
  Ok (n + 1).

(** The loop over [range(max(num_cols, self.size_grid[0] + 1))]. *)
Definition vertical_lines (self : t) (gtp : float) (canv_w canv_h : Z)
  : result (list item) :=
  let? num_cols := num_lines canv_w gtp in
  let? cols := index (size_grid self) 0 in
  comprehension
    (fun x => let? px := Py.mul (PyInt x) (PyFloat gtp) in
              Ok (Line px (PyInt 0) px (PyInt canv_h) (lncolor self)))
    (range (Z.max num_cols (cols + 1))).

(** The loop over [range(max(num_rows, self.size_grid[1] + 1))]. *)
Definition horizontal_lines (self : t) (gtp : float) (canv_w canv_h : Z)
  : result (list item) :=
  let? num_rows := num_lines canv_h gtp in
  let? rows := index (size_grid self) 1 in
  comprehension
    (fun y => let? py := Py.mul (PyInt y) (PyFloat gtp) in
              Ok (Line (PyInt 0) py (PyInt canv_w) py (lncolor self)))
    (range (Z.max num_rows (rows + 1))).

(** One label: [(x * gtp) + (4 * scaling)], [(y * gtp) + (2 * scaling)] and
    the text [f"{x},{y}"]. *)
Definition coordinate_label (self : t) (gtp scaling : float) (font_size x y : Z)
  : result item :=
  let? xg := Py.mul (PyInt x) (PyFloat gtp) in
  let? ix := Py.mul (PyInt 4) (PyFloat scaling) in
  let? px := Py.add xg ix in
  let? yg := Py.mul (PyInt y) (PyFloat gtp) in
  let? iy := Py.mul (PyInt 2) (PyFloat scaling) in
  let? py := Py.add yg iy in
  Ok (Text px py (Py.str x ++ "," ++ Py.str y) (txtcolor self) font_size).

(** The nested loops over the cells, when [show_coords] is set. *)
Definition coordinate_labels (self : t) (gtp scaling : float) : result (list item) :=
  if show_coords self then
    let? f8 := Py.mul (PyInt 8) (PyFloat scaling) in
    let? font_size := Py.int f8 in
    let? cols := index (size_grid self) 0 in
    let? columns :=
      comprehension
        (fun x =>
           let? rows := index (size_grid self) 1 in
           comprehension (coordinate_label self gtp scaling font_size x) (range rows))
        (range cols) in
    Ok (List.concat columns)
  else Ok [].

(** [DebugLayer._actual_draw]: the canvas it draws.  Destroying the previous
    canvas and lowering the new one behind the widgets, 10 ms later, leave
    no trace on the canvas drawn. *)
Definition _actual_draw (self : t) (host : Host) : result Canvas :=
  let scaling := scaling_or_default (scaling_answer host) in
  let? size := GridSystem.get_window_size (grid_system self)
                 (map PyInt (size_grid self)) in
  let bg_color :=
    match bgcolor self with
    | None => if String.eqb (appearance_mode host) "Dark"
              then "#242424"%string else "#ebebeb"%string
    | Some c => c
    end in
  let? gtp := spacing self scaling in
  let? vs := vertical_lines self gtp (canv_w host) (canv_h host) in
  let? hs := horizontal_lines self gtp (canv_w host) (canv_h host) in
  let? ls := coordinate_labels self gtp scaling in
  Ok {| width := fst size; height := snd size; bg := bg_color;
        items := vs ++ hs ++ ls |}.


End DebugLayer.

(** ** A reference toolkit *)

(** A stand-in for the backend on which gestures can be run: one widget with
    its geometry in physical pixels, a display whose scaling query answers
    [scaling_now], and a count of activations.  A logical length becomes
    physical pixels by multiplying with the scaling and rounding. *)
Module Sim.

Record t : Type := {
  scaling_now : result float;
  px : Z;
  py : Z;
  pw : Z;
  ph : Z;
  clicks : nat
}.

(** The factor the backend scales widgets by: what the display reports,
    1.0 while the provider does not answer. *)
Definition scale (s : t) : float :=
  match scaling_now s with
  | Ok v => v
  | Raise _ => 1%float
  end.

Definition pixels (s : t) (v : num) (old : Z) : Z :=
  match (let? p := Py.mul v (PyFloat (scale s)) in
         let? f := Py.to_float p in
         Py.round_float f) with
  | Ok z => z
  | Raise _ => old
  end.

Definition move (x y : num) (s : t) : t :=
  {| scaling_now := scaling_now s; px := pixels s x (px s); py := pixels s y (py s);
     pw := pw s; ph := ph s; clicks := clicks s |}.

Definition resize (width height : num) (s : t) : t :=
  {| scaling_now := scaling_now s; px := px s; py := py s;
     pw := pixels s width (pw s); ph := pixels s height (ph s); clicks := clicks s |}.

Definition click (s : t) : t :=
  {| scaling_now := scaling_now s; px := px s; py := py s;
     pw := pw s; ph := ph s; clicks := S (clicks s) |}.

Definition set_scaling (answer : result float) (s : t) : t :=
  {| scaling_now := answer; px := px s; py := py s;
     pw := pw s; ph := ph s; clicks := clicks s |}.

(** A button ([invoke] present) and a label (no [invoke]). *)
Definition button : Toolkit t :=
  {| get_window_scaling := scaling_now;
     winfo_x := px; winfo_y := py; winfo_width := pw; winfo_height := ph;
     place := move; configure := resize;
     lift := fun s => s; update_idletasks := fun s => s;
     invoke := Some click |}.

Definition label : Toolkit t :=
  {| get_window_scaling := scaling_now;
     winfo_x := px; winfo_y := py; winfo_width := pw; winfo_height := ph;
     place := move; configure := resize;
     lift := fun s => s; update_idletasks := fun s => s;
     invoke := None |}.

(** A widget at the given physical geometry on a display of scaling [s]. *)
Definition widget (s : float) (x y w h : Z) : t :=
  {| scaling_now := Ok s; px := x; py := y; pw := w; ph := h; clicks := 0 |}.

End Sim.

(** ** Data for the examples *)

Module Example.

(** [App(size=[12, 8], gtp=50)]. *)
Definition app : App.t :=
  {| App.size_grid := [12; 8]; App.gtp := 50;
     App.grid_system := GridSystem.init 50; App.window := (600, 400) |}.

Definition pointer (x y : Z) : Event := {| x_root := x; y_root := y |}.

(** A 2 by 1 widget with its top-left corner at physical pixel [(x, y)], on
    a display of scaling 1.0, before any gesture. *)
Definition draggable (x y : Z) : Ctx Drag.State Sim.t :=
  {| state := Drag.state0; tk := Sim.widget 1 x y 100 50; log := [] |}.

(** The same widget in the middle of a drag: ["moved"] is set. *)
Definition dragged (x y : Z) : Ctx Drag.State Sim.t :=
  {| state := Drag.set_moved true Drag.state0;
     tk := Sim.widget 1 x y 100 50; log := [] |}.

(** A widget of [w] by [h] physical pixels with a resize handle. *)
Definition resizable (w h : Z) : Ctx Resize.State Sim.t :=
  {| state := Resize.state0; tk := Sim.widget 1 50 50 w h; log := [] |}.

(** The provider stops answering. *)
Definition provider_fails (s : Sim.t) : Sim.t :=
  Sim.set_scaling (Raise ProviderError) s.

(** A context in which the provider has stopped answering. *)
Definition broken {S} (c : Ctx S Sim.t) : Ctx S Sim.t :=
  {| state := state c; tk := provider_fails (tk c); log := log c |}.

(** The debug layer of an App with [gtp = 50], without labels. *)
Definition debug_layer (cols rows : Z) : DebugLayer.t :=
  {| DebugLayer.grid_system := GridSystem.init 50;
     DebugLayer.size_grid := [cols; rows];
     DebugLayer.bgcolor := None;
     DebugLayer.lncolor := "gray30";
     DebugLayer.txtcolor := "gray50";
     DebugLayer.show_coords := false |}.

(** A host in dark mode whose canvas measures [w] by [h]. *)
Definition host (answer : result float) (w h : Z) : DebugLayer.Host :=
  {| DebugLayer.scaling_answer := answer;
     DebugLayer.appearance_mode := "Dark";
     DebugLayer.canv_w := w;
     DebugLayer.canv_h := h |}.

End Example.

(** ** The vocabulary of the properties *)

Module Spec.

(** The rule the written specification gives for [toPixels]: truncate the
    grid component, then multiply by [gtp]. *)
Definition to_pixels (self : GridSystem.t) (grid_pos : list num) : result (Z * Z) :=
  let? g0 := index grid_pos 0 in
  let? t0 := Py.int g0 in
  let? g1 := index grid_pos 1 in
  let? t1 := Py.int g1 in
  Ok (t0 * GridSystem.gtp self, t1 * GridSystem.gtp self).

(** [z] is the exact value of the finite float [f] cut toward zero: no
    further from zero than [f], less than one away from it, and not of the
    opposite sign. *)
Definition toward_zero (f : float) (z : Z) : Prop :=
  match Prim2SF f with
  | S754_zero _ => z = 0
  | S754_finite s m e =>
      if 0 <=? e then z = Py.signed s m * 2 ^ e
      else Z.abs z * 2 ^ (- e) <= Z.pos m < (Z.abs z + 1) * 2 ^ (- e)
           /\ (if s then z <= 0 else 0 <= z)
  | _ => False
  end.

(** [z] is an integer nearest to the exact value of the finite float [f]. *)
Definition nearest_int (f : float) (z : Z) : Prop :=
  match Prim2SF f with
  | S754_zero _ => z = 0
  | S754_finite s m e =>
      if 0 <=? e then z = Py.signed s m * 2 ^ e
      else 2 * Z.abs (Py.signed s m - z * 2 ^ (- e)) <= 2 ^ (- e)
  | _ => False
  end.

(** [p] is an exact integer multiple of [gtp]. *)
Definition on_grid (gtp : Z) (p : num) : Prop :=
  exists k : Z, p = PyInt (k * gtp).

(** The gate of [on_motion]: whether a move event sets ["moved"]. *)
Definition exceeds (st : Drag.State) (e : Event) : bool :=
  match App.delta (x_root e) (Drag.start_root_x st) (Drag.get_scaling st),
        App.delta (y_root e) (Drag.start_root_y st) (Drag.get_scaling st) with
  | Ok dx, Ok dy => Drag.beyond_threshold dx dy
  | _, _ => false
  end.

(** The logical movement of a move event, measured from the press with the
    scaling captured there, is at most 3 pixels on both axes. *)
Definition within_threshold (st : Drag.State) (e : Event) : Prop :=
  exists dx dy : float,
    App.delta (x_root e) (Drag.start_root_x st) (Drag.get_scaling st) = Ok dx
    /\ App.delta (y_root e) (Drag.start_root_y st) (Drag.get_scaling st) = Ok dy
    /\ Py.leb (Py.abs (PyFloat dx)) (PyInt 3) = true
    /\ Py.leb (Py.abs (PyFloat dy)) (PyInt 3) = true.

(** It is more than 3 pixels on one axis at least. *)
Definition beyond_threshold (st : Drag.State) (e : Event) : Prop :=
  exists dx dy : float,
    App.delta (x_root e) (Drag.start_root_x st) (Drag.get_scaling st) = Ok dx
    /\ App.delta (y_root e) (Drag.start_root_y st) (Drag.get_scaling st) = Ok dy
    /\ (Py.gtb (Py.abs (PyFloat dx)) (PyInt 3) = true
        \/ Py.gtb (Py.abs (PyFloat dy)) (PyInt 3) = true).

(** Between a press and its release: move events and changes from outside. *)
Definition is_move {T} (i : input T) : Prop :=
  match i with
  | Motion _ | External _ => True
  | Press _ | Release _ => False
  end.

(** The move events of a list of inputs. *)
Fixpoint motions {T} (l : list (input T)) : list Event :=
  match l with
  | [] => []
  | Motion e :: l' => e :: motions l'
  | _ :: l' => motions l'
  end.

(** A vertical and a horizontal grid line of a canvas of the given size. *)
Definition vertical (canv_h : Z) (fill : string) (it : DebugLayer.item) : Prop :=
  exists px : num, it = DebugLayer.Line px (PyInt 0) px (PyInt canv_h) fill.

Definition horizontal (canv_w : Z) (fill : string) (it : DebugLayer.item) : Prop :=
  exists py : num, it = DebugLayer.Line (PyInt 0) py (PyInt canv_w) py fill.

Section Targets.

Context {T : Type} `{Toolkit T}.
Variable self : App.t.

(** The cell a drag release snaps to: the widget's position in logical
    pixels, [winfo / scaling], divided by [gtp] and rounded, per axis. *)
Definition snap_target (tk : T) : result (Z * Z) :=
  let? s := get_window_scaling tk in
  let? cx := Py.truediv (PyInt (winfo_x tk)) s in
  let? cy := Py.truediv (PyInt (winfo_y tk)) s in
  let? gx := App.to_grid self cx in
  let? gy := App.to_grid self cy in
  Ok (gx, gy).

(** The grid size a resize release commits. *)
Definition size_target (tk : T) : result (Z * Z) :=
  let? s := get_window_scaling tk in
  let? cw := Py.truediv (PyInt (winfo_width tk)) s in
  let? ch := Py.truediv (PyInt (winfo_height tk)) s in
  let? gw := Resize.to_grid_size self cw in
  let? gh := Resize.to_grid_size self ch in
  Ok (gw, gh).

(** The context after one more call on the widget. *)
Definition after {S} (what : call) (f : T -> T) (c : Ctx S T) : Ctx S T :=
  {| state := state c; tk := f (tk c); log := log c ++ [what] |}.

End Targets.

End Spec.

(** ** The same vocabulary in the interpreter's own operations *)

(** What the properties say of a pixel and of a pointer movement, written
    with the built-in operations alone, apart from the code under study. *)
Module Logical.

(** One axis of a conversion: the product [component * gtp] as the
    interpreter forms it (exact for an [int], in floating point for a
    [float]), then [int()]. *)
Definition axis_pixels (gtp : Z) (component : num) : result Z :=
  match component with
  | PyInt x => Ok (x * gtp)
  | PyFloat f => let? g := Py.float_of_int gtp in Py.trunc_float (f * g)%float
  end.

(** [px] is the product [component * gtp] cut toward zero. *)
Definition product_cut (gtp : Z) (component : num) (px : Z) : Prop :=
  match component with
  | PyInt x => px = x * gtp
  | PyFloat f =>
      exists g : float,
        Py.float_of_int gtp = Ok g
        /\ Py.trunc_float (f * g)%float = Ok px
        /\ Spec.toward_zero (f * g)%float px
  end.

(** The logical movement of the pointer at [e] since the press at [e0],
    under the scaling [s]: the offset in screen pixels divided by [s]. *)
Definition movement (s : float) (e0 e : Event) (dx dy : float) : Prop :=
  Py.truediv (PyInt (x_root e - x_root e0)) s = Ok dx
  /\ Py.truediv (PyInt (y_root e - y_root e0)) s = Ok dy.

(** It is at most 3 logical pixels on both axes. *)
Definition stays_within (s : float) (e0 e : Event) : Prop :=
  exists dx dy : float,
    movement s e0 e dx dy
    /\ Py.leb (Py.abs (PyFloat dx)) (PyInt 3) = true
    /\ Py.leb (Py.abs (PyFloat dy)) (PyInt 3) = true.

(** It is more than 3 logical pixels on one axis at least. *)
Definition goes_beyond (s : float) (e0 e : Event) : Prop :=
  exists dx dy : float,
    movement s e0 e dx dy
    /\ (Py.gtb (Py.abs (PyFloat dx)) (PyInt 3) = true
        \/ Py.gtb (Py.abs (PyFloat dy)) (PyInt 3) = true).

End Logical.

(** ** [App.number]: the filter of a numeric input *)

Module Number.

Import Stdlib.Strings.Ascii.

(** A text is a [string] of characters with code points 0 to 255 (Latin-1).
    [str.isdigit] holds of the ten decimal digits and, in this range, of the
    superscripts two, three and one (U+00B2, U+00B3, U+00B9). *)
Definition isdecimal_char (a : ascii) : bool :=
  (48 <=? N_of_ascii a)%N && (N_of_ascii a <=? 57)%N.

Definition isdigit_char (a : ascii) : bool :=
  isdecimal_char a
  || (N_of_ascii a =? 178)%N || (N_of_ascii a =? 179)%N || (N_of_ascii a =? 185)%N.

Fixpoint all_chars (p : ascii -> bool) (s : string) : bool :=
  match s with
  | EmptyString => true
  | String a s' => p a && all_chars p s'
  end.

(** [s.isdigit()]: every character is a digit and there is at least one. *)
Definition isdigit (s : string) : bool :=
  match s with
  | EmptyString => false
  | _ => all_chars isdigit_char s
  end.

(** [val[1:] if val.startswith('-') else val]. *)
Definition strip_minus (val : string) : string :=
  match val with
  | String a rest => if Ascii.eqb a "-"%char then rest else val
  | EmptyString => val
  end.

(** The interpreter refuses to convert a text of more than
    [int_max_str_digits] digits, when that setting is not 0 and the text has
    more than 640 digits. *)
Definition too_many_digits (int_max_str_digits : nat) (digits : string) : bool :=
  (640 <? String.length digits)%nat
  && (0 <? int_max_str_digits)%nat
  && (int_max_str_digits <? String.length digits)%nat.

(** [int(val)] for the texts that reach it in [filter_numbers]: an optional
    ['-'] followed by characters that pass [isdigit].  A superscript digit
    has no decimal value and makes it raise. *)
Definition int_of_text (int_max_str_digits : nat) (val : string) : result Z :=
  match NilZero.int_of_string val with
  | Some d =>
      if too_many_digits int_max_str_digits (strip_minus val) then Raise ValueError
      else Ok (Z.of_int d)
  | None => Raise ValueError
  end.

(** [filter_numbers] of [App.number], bound to every key release of the
    entry with the entry's text: the number it hands to [onchange], if any
    (with no [onchange] given nothing is called). *)
Definition filter_numbers (int_max_str_digits : nat) (min max : Z) (val : string)
  : result (option Z) :=
  if String.eqb val EmptyString then Ok None else
  let temp_val := strip_minus val in
  if negb (isdigit temp_val) then Ok None else
  let? num := int_of_text int_max_str_digits val in
  if (num <? min) || (num >? max) then Ok None else
  Ok (Some num).

(** The number a text of decimal digits denotes, read from the left, and
    with a leading ['-']: the vocabulary the properties of the filter are
    stated in. *)
Definition digit_value (a : ascii) : Z := Z.of_N (N_of_ascii a) - 48.

Fixpoint digits_value (acc : Z) (s : string) : Z :=
  match s with
  | EmptyString => acc
  | String a s' => digits_value (10 * acc + digit_value a) s'
  end.

Definition decimal_value (val : string) : Z :=
  match val with
  | String a rest =>
      if Ascii.eqb a "-"%char then - digits_value 0 rest else digits_value 0 val
  | EmptyString => 0
  end.

End Number.

(** ** [bind_recursive] of [App.make_draggable] *)

Module Binding.

Set Warnings "-register-all".

(** A widget with its children, as [winfo_children] lists them. *)
Inductive widget : Type :=
| Widget (name : string) (children : list widget).

Definition winfo_children (w : widget) : list widget :=
  match w with
  | Widget _ children => children
  end.

(** The three closures of [make_draggable]. *)
Inductive handler : Type :=
| on_press
| on_motion
| on_release.

(** One call [backend.bind_event(widget, event_name, callback)]. *)
Definition binding : Type := widget * string * handler.

(** The three calls made on one widget. *)
Definition bind_events (w : widget) : list binding :=
  [(w, "<Button-1>"%string, on_press);
   (w, "<B1-Motion>"%string, on_motion);
   (w, "<ButtonRelease-1>"%string, on_release)].

(** [bind_recursive]: the calls it makes, in order.  The interpreter's limit
    on the depth of recursion is not modelled. *)
Fixpoint bind_recursive (w : widget) : list binding :=
  match w with
  | Widget _ children =>
      flat_map (fun child => bind_events child ++ bind_recursive child) children
  end.

(** The binding calls of [make_draggable(widget_wrapper)]. *)
Definition make_draggable (widget : widget) : list binding :=
  bind_events widget ++ bind_recursive widget.

(** The widgets of a subtree, parents before children, in the order of
    [winfo_children]. *)
Fixpoint preorder (w : widget) : list widget :=
  match w with
  | Widget _ children => w :: flat_map preorder children
  end.

(** [w] is [root] or one of its descendants. *)
Inductive inside (root : widget) : widget -> Prop :=
| inside_root : inside root root
| inside_child (w c : widget) : inside root w -> In c (winfo_children w) -> inside root c.

(** The number of widgets of a subtree. *)
Fixpoint size (w : widget) : nat :=
  match w with
  | Widget _ children => S (list_sum (map size children))
  end.

End Binding.

(** ** [BackendCustomTK]: text alignment *)

Module Backend.

(** A [dict] with [str] keys, in the order of its literal. *)
Definition dict (V : Type) : Type := list (string * V).

(** [d.get(key, default)]. *)
Fixpoint dict_get {V} (d : dict V) (key : string) (default : V) : V :=
  match d with
  | [] => default
  | (k, v) :: d' => if String.eqb k key then v else dict_get d' key default
  end.

(** The [anchor_map] of [create_button] and [create_label]. *)
Definition anchor_map : dict string :=
  [("center", "center"); ("left", "w"); ("right", "e"); ("top", "n"); ("bottom", "s")]%string.

(** [tk_anchor = anchor_map.get(anchor, "center")]. *)
Definition tk_anchor (anchor : string) : string :=
  dict_get anchor_map anchor "center"%string.

End Backend.

(** ** What an overlay shows and what a gesture calls *)

Module Overlay.

(** The texts of the labels of a canvas, in drawing order. *)
Definition texts (items : list DebugLayer.item) : list string :=
  flat_map (fun it => match it with
                      | DebugLayer.Text _ _ text _ _ => [text]
                      | DebugLayer.Line _ _ _ _ _ => []
                      end) items.

(** The name of a cell, and the names of the cells of a grid, column by
    column. *)
Definition cell_name (x y : Z) : string := (Py.str x ++ "," ++ Py.str y)%string.

Definition cell_names (cols rows : Z) : list string :=
  flat_map (fun x => map (cell_name x) (range rows)) (range cols).



(** The debug layer of an App with the given [gtp], with or without labels. *)
Definition layer (gtp cols rows : Z) (labels : bool) : DebugLayer.t :=
  {| DebugLayer.grid_system := GridSystem.init gtp;
     DebugLayer.size_grid := [cols; rows];
     DebugLayer.bgcolor := None;
     DebugLayer.lncolor := "gray30";
     DebugLayer.txtcolor := "gray50";
     DebugLayer.show_coords := labels |}.

End Overlay.

Module Trace.

(** The calls the handlers of a drag make on the widget, and those of a
    resize. *)
Definition drag_call (c : call) : bool :=
  match c with
  | Place _ _ | Lift | UpdateIdletasks | Invoke => true
  | Configure _ _ => false
  end.

Definition resize_call (c : call) : bool :=
  match c with
  | Configure _ _ | Lift => true
  | Place _ _ | UpdateIdletasks | Invoke => false
  end.

(** Whatever context [m] starts from, it leaves the log it found in place
    and adds only calls that satisfy [p]. *)
Definition adds_only {S T A} (p : call -> bool) (m : M S T A) : Prop :=
  forall c : Ctx S T,
    exists added : list call,
      log (snd (m c)) = log c ++ added /\ forallb p added = true.

End Trace.

(** ** [DebugLayer._actual_draw], step by step *)

(** The same method with the canvas as the code has it: an object that every
    [create_line] and [create_text] extends, so that what was created before
    an exception stays on it. *)
Module Drawing.

(** A step of the draw: it answers or raises, and leaves the canvas with the
    items created so far. *)
Definition Draw (A : Type) : Type :=
  list DebugLayer.item -> result A * list DebugLayer.item.

Definition compute {A} (r : result A) : Draw A := fun canvas => (r, canvas).

Definition create (it : DebugLayer.item) : Draw unit :=
  fun canvas => (Ok tt, canvas ++ [it]).

Definition and_then {A B} (m : Draw A) (k : A -> Draw B) : Draw B :=
  fun canvas =>
    match m canvas with
    | (Ok a, canvas') => k a canvas'
    | (Raise e, canvas') => (Raise e, canvas')
    end.

Fixpoint for_each {A} (body : A -> Draw unit) (l : list A) : Draw unit :=
  match l with
  | [] => compute (Ok tt)
  | a :: l' => and_then (body a) (fun _ => for_each body l')
  end.

(** The loop over [range(max(num_cols, self.size_grid[0] + 1))]. *)
Definition vertical_lines (self : DebugLayer.t) (gtp : float) (canv_w canv_h : Z)
  : Draw unit :=
  and_then (compute (DebugLayer.num_lines canv_w gtp)) (fun num_cols =>
  and_then (compute (index (DebugLayer.size_grid self) 0)) (fun cols =>
  for_each
    (fun x =>
       and_then (compute (Py.mul (PyInt x) (PyFloat gtp))) (fun px =>
       create (DebugLayer.Line px (PyInt 0) px (PyInt canv_h) (DebugLayer.lncolor self))))
    (range (Z.max num_cols (cols + 1))))).

(** The loop over [range(max(num_rows, self.size_grid[1] + 1))]. *)
Definition horizontal_lines (self : DebugLayer.t) (gtp : float) (canv_w canv_h : Z)
  : Draw unit :=
  and_then (compute (DebugLayer.num_lines canv_h gtp)) (fun num_rows =>
  and_then (compute (index (DebugLayer.size_grid self) 1)) (fun rows =>
  for_each
    (fun y =>
       and_then (compute (Py.mul (PyInt y) (PyFloat gtp))) (fun py =>
       create (DebugLayer.Line (PyInt 0) py (PyInt canv_w) py (DebugLayer.lncolor self))))
    (range (Z.max num_rows (rows + 1))))).

(** The nested loops over the cells, when [show_coords] is set. *)
Definition coordinate_labels (self : DebugLayer.t) (gtp scaling : float) : Draw unit :=
  if DebugLayer.show_coords self then
    and_then (compute (Py.mul (PyInt 8) (PyFloat scaling))) (fun f8 =>
    and_then (compute (Py.int f8)) (fun font_size =>
    and_then (compute (index (DebugLayer.size_grid self) 0)) (fun cols =>
    for_each
      (fun x =>
         and_then (compute (index (DebugLayer.size_grid self) 1)) (fun rows =>
         for_each
           (fun y =>
              and_then
                (compute (DebugLayer.coordinate_label self gtp scaling font_size x y))
                create)
           (range rows)))
      (range cols))))
  else compute (Ok tt).

(** [DebugLayer._actual_draw], step by step on the canvas it has created. *)
Definition _actual_draw (self : DebugLayer.t) (host : DebugLayer.Host) : Draw unit :=
  let scaling := DebugLayer.scaling_or_default (DebugLayer.scaling_answer host) in
  and_then (compute (GridSystem.get_window_size (DebugLayer.grid_system self)
                       (map PyInt (DebugLayer.size_grid self)))) (fun _ =>
  and_then (compute (DebugLayer.spacing self scaling)) (fun gtp =>
  and_then (vertical_lines self gtp (DebugLayer.canv_w host) (DebugLayer.canv_h host))
    (fun _ =>
  and_then (horizontal_lines self gtp (DebugLayer.canv_w host) (DebugLayer.canv_h host))
    (fun _ =>
  coordinate_labels self gtp scaling)))).


End Drawing.

(** ** GridSystem and the widget factories *)

Lemma mul_float_int (f : float) (b : Z) :
  Py.mul (PyFloat f) (PyInt b) =
  (let? g := Py.float_of_int b in Ok (PyFloat (f * g)%float)).
Proof. reflexivity. Qed.


Lemma to_pixels_int (gtp x y : Z) :
  GridSystem.to_pixels (GridSystem.init gtp) [PyInt x; PyInt y] = Ok (x * gtp, y * gtp).
Proof. reflexivity. Qed.

Lemma dim_to_pixels_int (gtp w h : Z) :
  GridSystem.dim_to_pixels (GridSystem.init gtp) [PyInt w; PyInt h] = Ok (w * gtp, h * gtp).
Proof. reflexivity. Qed.

Lemma to_pixels_float (gtp : Z) (fx fy : float) :
  GridSystem.to_pixels (GridSystem.init gtp) [PyFloat fx; PyFloat fy] =
  (let? g := Py.float_of_int gtp in
   let? px := Py.trunc_float (fx * g)%float in
   let? py := Py.trunc_float (fy * g)%float in
   Ok (px, py)).
Proof.
  unfold GridSystem.to_pixels; cbn [index nth_error rbind GridSystem.gtp GridSystem.init].
  rewrite !mul_float_int.
  destruct (Py.float_of_int gtp) as [g|e]; cbn [rbind Py.int]; [|reflexivity].
  destruct (Py.trunc_float (fx * g)%float); reflexivity.
Qed.

(** C1, counterexample: with [gtp = 50] the position [[1.9, 2.1]] goes to
    [(95, 105)], where truncating before multiplying gives [(50, 100)]. *)
Lemma to_pixels_truncation_law_fails :
  GridSystem.to_pixels (GridSystem.init 50) [PyFloat 1.9; PyFloat 2.1] = Ok (95, 105)
  /\ Spec.to_pixels (GridSystem.init 50) [PyFloat 1.9; PyFloat 2.1] = Ok (50, 100)
  /\ GridSystem.to_pixels (GridSystem.init 50) [PyFloat 1.9; PyFloat 2.1]
     <> Spec.to_pixels (GridSystem.init 50) [PyFloat 1.9; PyFloat 2.1].
Proof.
  repeat split; try reflexivity.
  vm_compute. discriminate.
Qed.

(** [int] of a float cuts its exact value toward zero. *)
Lemma trunc_float_toward_zero (f : float) (z : Z) :
  Py.trunc_float f = Ok z -> Spec.toward_zero f z.
Proof.
  unfold Py.trunc_float, Spec.toward_zero.
  destruct (Prim2SF f) as [s|s| |s m e]; try discriminate.
  - now intros [= <-].
  - destruct (0 <=? e) eqn:He; intros Hz.
    + congruence.
    + apply Z.leb_gt in He.
      assert (Hd : 0 < 2 ^ (- e)) by (apply Z.pow_pos_nonneg; lia).
      assert (z = Z.quot (Py.signed s m) (2 ^ (- e))) as -> by congruence.
      remember (2 ^ (- e)) as d eqn:Ed. clear Ed.
      pose proof (Z.div_mod (Z.pos m) d ltac:(lia)) as Hdm.
      pose proof (Z.mod_pos_bound (Z.pos m) d Hd) as Hr.
      assert (Hq : 0 <= Z.pos m / d) by (apply Z.div_pos; lia).
      destruct s; unfold Py.signed.
      * change (Z.neg m) with (- Z.pos m).
        rewrite Z.quot_opp_l, Z.quot_div_nonneg by lia.
        rewrite Z.abs_opp, Z.abs_eq by lia. nia.
      * rewrite Z.quot_div_nonneg by lia. rewrite Z.abs_eq by lia. nia.
Qed.

(** One axis of [to_pixels], whatever the type of the component. *)
Lemma axis_pixels_cut (gtp : Z) (a : num) (px : Z) :
  Logical.axis_pixels gtp a = Ok px -> Logical.product_cut gtp a px.
Proof.
  destruct a as [x|f]; cbn [Logical.axis_pixels Logical.product_cut].
  - now intros [= <-].
  - destruct (Py.float_of_int gtp) as [g|]; cbn [rbind]; [|discriminate].
    intros Hp. exists g. repeat split; auto using trunc_float_toward_zero.
Qed.

Lemma to_pixels_axis (gtp : Z) (a : num) :
  (let? p := Py.mul a (PyInt gtp) in Py.int p) = Logical.axis_pixels gtp a.
Proof.
  destruct a as [x|f]; [reflexivity|].
  rewrite mul_float_int. cbn [Logical.axis_pixels].
  destruct (Py.float_of_int gtp); reflexivity.
Qed.

(** [to_pixels] on a list of any length: the first two components, one axis
    each; [IndexError] for a shorter list, after the first product. *)
Lemma to_pixels_any (gtp : Z) (grid_pos : list num) :
  GridSystem.to_pixels (GridSystem.init gtp) grid_pos =
  match grid_pos with
  | a :: b :: _ =>
      let? px := Logical.axis_pixels gtp a in
      let? py := Logical.axis_pixels gtp b in
      Ok (px, py)
  | [a] => let? px := Logical.axis_pixels gtp a in Raise IndexError
  | [] => Raise IndexError
  end.
Proof.
  unfold GridSystem.to_pixels. cbn [GridSystem.gtp GridSystem.init].
  destruct grid_pos as [|a [|b rest]]; cbn [index nth_error rbind]; [reflexivity| |].
  - rewrite <- to_pixels_axis.
    destruct (Py.mul a (PyInt gtp)) as [p|]; cbn [rbind]; [|reflexivity].
    destruct (Py.int p); reflexivity.
  - rewrite <- !to_pixels_axis.
    destruct (Py.mul a (PyInt gtp)) as [p|]; cbn [rbind]; [|reflexivity].
    destruct (Py.int p); cbn [rbind]; [|reflexivity].
    destruct (Py.mul b (PyInt gtp)) as [q|]; cbn [rbind]; [|reflexivity].
    destruct (Py.int q); reflexivity.
Qed.

(** C1, as amended: [to_pixels] multiplies first and truncates the product:
    per axis it is [int(grid_component * gtp)], for every grid position,
    whatever the types of its two components and however many follow.  For
    an integer component that is [component * gtp], the rule of the
    specification; for a float component it is the floating-point product
    cut toward zero, and [[1.9, 2.1]] with [gtp = 50] yields [(95, 105)]. *)
Theorem to_pixels_truncates_the_product (gtp : Z) :
  (forall x y : Z,
      GridSystem.to_pixels (GridSystem.init gtp) [PyInt x; PyInt y] = Ok (x * gtp, y * gtp)
      /\ Spec.to_pixels (GridSystem.init gtp) [PyInt x; PyInt y] = Ok (x * gtp, y * gtp))
  /\ (forall (fx fy : float) (px py : Z),
      GridSystem.to_pixels (GridSystem.init gtp) [PyFloat fx; PyFloat fy] = Ok (px, py) ->
      exists g : float,
        Py.float_of_int gtp = Ok g
        /\ Py.trunc_float (fx * g)%float = Ok px /\ Spec.toward_zero (fx * g)%float px
        /\ Py.trunc_float (fy * g)%float = Ok py /\ Spec.toward_zero (fy * g)%float py)
  /\ GridSystem.to_pixels (GridSystem.init 50) [PyFloat 1.9; PyFloat 2.1] = Ok (95, 105)
  /\ (forall grid_pos : list num,
      GridSystem.to_pixels (GridSystem.init gtp) grid_pos =
      match grid_pos with
      | a :: b :: _ =>
          let? px := Logical.axis_pixels gtp a in
          let? py := Logical.axis_pixels gtp b in
          Ok (px, py)
      | [a] => let? px := Logical.axis_pixels gtp a in Raise IndexError
      | [] => Raise IndexError
      end)
  /\ (forall (a b : num) (more : list num) (px py : Z),
      GridSystem.to_pixels (GridSystem.init gtp) (a :: b :: more) = Ok (px, py) ->
      Logical.product_cut gtp a px /\ Logical.product_cut gtp b py).
Proof.
  split; [|split; [|split; [|split]]].
  - intros x y. split; reflexivity.
  - intros fx fy px py. rewrite to_pixels_float.
    destruct (Py.float_of_int gtp) as [g|]; cbn [rbind]; [|discriminate].
    destruct (Py.trunc_float (fx * g)%float) as [zx|] eqn:Hx; cbn [rbind]; [|discriminate].
    destruct (Py.trunc_float (fy * g)%float) as [zy|] eqn:Hy; cbn [rbind]; [|discriminate].
    intros [= <- <-]. exists g. repeat split; auto using trunc_float_toward_zero.
  - reflexivity.
  - apply to_pixels_any.
  - intros a b more px py. rewrite to_pixels_any.
    destruct (Logical.axis_pixels gtp a) as [zx|] eqn:Hx; cbn [rbind]; [|discriminate].
    destruct (Logical.axis_pixels gtp b) as [zy|] eqn:Hy; cbn [rbind]; [|discriminate].
    intros [= <- <-]. split; now apply axis_pixels_cut.
Qed.

(** C1, witness: the position [[1.9, 2.1]] with [gtp = 50]; the mixed
    position [[1, 0.5]], which goes to [(50, 25)]; and [[-0.75, 2, 9]],
    whose first product [-37.5] is cut to [-37]. *)
Lemma to_pixels_truncates_the_product_witness :
  (exists g : float,
    Py.float_of_int 50 = Ok g
    /\ Py.trunc_float (1.9 * g)%float = Ok 95 /\ Spec.toward_zero (1.9 * g)%float 95
    /\ Py.trunc_float (2.1 * g)%float = Ok 105 /\ Spec.toward_zero (2.1 * g)%float 105)
  /\ Logical.product_cut 50 (PyInt 1) 50
  /\ Logical.product_cut 50 (PyFloat 0.5) 25
  /\ Logical.product_cut 50 (PyFloat (-0.75)) (-37).
Proof.
  pose proof (to_pixels_truncates_the_product 50) as (_ & Hf & _ & _ & Hany).
  split; [exact (Hf 1.9%float 2.1%float 95 105 eq_refl)|].
  split; [exact (proj1 (Hany (PyInt 1) (PyFloat 0.5) [] 50 25 eq_refl))|].
  split; [exact (proj2 (Hany (PyInt 1) (PyFloat 0.5) [] 50 25 eq_refl))|].
  exact (proj1 (Hany (PyFloat (-0.75)) (PyInt 2) [PyInt 9] (-37) 100 eq_refl)).
Defined.

(** C5, counterexample: a grid system and an App are built with [gtp = 0]
    and with [gtp = -50]; nothing is raised, and the object with [gtp = 0]
    converts positions. *)
Lemma zero_gtp_is_accepted :
  GridSystem.gtp (GridSystem.init 0) = 0
  /\ GridSystem.to_pixels (GridSystem.init 0) [PyInt 3; PyInt 4] = Ok (0, 0)
  /\ App.init [PyInt 12; PyInt 8] 0 =
     Ok {| App.size_grid := [12; 8]; App.gtp := 0;
           App.grid_system := GridSystem.init 0; App.window := (0, 0) |}
  /\ App.init [PyInt 12; PyInt 8] (-50) =
     Ok {| App.size_grid := [12; 8]; App.gtp := -50;
           App.grid_system := GridSystem.init (-50); App.window := (-600, -400) |}.
Proof. repeat split. Qed.

(** C5, as amended: neither constructor checks [gtp].  [GridSystem] stores
    any [gtp], zero and negative ones included, and [App.__init__] on an
    integer grid size computes the window size [cols * gtp] by [rows * gtp]
    for any [gtp] without raising; with [gtp = 0] every integer position
    converts to pixel [(0, 0)]. *)
Theorem constructors_accept_any_gtp (gtp : Z) :
  GridSystem.gtp (GridSystem.init gtp) = gtp
  /\ (forall cols rows : Z,
      App.init [PyInt cols; PyInt rows] gtp =
      Ok {| App.size_grid := [cols; rows]; App.gtp := gtp;
            App.grid_system := GridSystem.init gtp;
            App.window := (cols * gtp, rows * gtp) |})
  /\ (forall x y : Z,
      GridSystem.to_pixels (GridSystem.init 0) [PyInt x; PyInt y] = Ok (0, 0)).
Proof.
  repeat split.
  intros x y. rewrite to_pixels_int. now rewrite !Z.mul_0_r.
Qed.

(** [[int(p) for p in [a, b]]]. *)
Lemma comprehension_int_pair (a b : num) :
  comprehension Py.int [a; b] =
  (let? ia := Py.int a in let? ib := Py.int b in Ok [ia; ib]).
Proof.
  cbn [comprehension]. destruct (Py.int a); cbn [rbind]; [|reflexivity].
  destruct (Py.int b); reflexivity.
Qed.

Lemma init_grid_system (size : list num) (gtp : Z) (self : App.t) :
  App.init size gtp = Ok self ->
  App.grid_system self = GridSystem.init gtp /\ App.gtp self = gtp.
Proof.
  unfold App.init. destruct (comprehension Py.int size); cbn [rbind Py.int]; [|discriminate].
  destruct (GridSystem.get_window_size _ _); cbn [rbind]; [|discriminate].
  intros [= <-]. split; reflexivity.
Qed.

(** C10: a factory truncates each grid component with [int()] before it
    converts: the button of [btn([x, y], [w, h])], and likewise the label of
    [label([x, y], [w, h])], is created at pixel
    [(int(x) * gtp, int(y) * gtp)] with size [(int(w) * gtp, int(h) * gtp)],
    and the call fails only where one of the four [int()] fails. *)
Theorem btn_truncates_before_converting
  (size0 : list num) (gtp : Z) (self : App.t) (x y w h : num) :
  App.init size0 gtp = Ok self ->
  let geometry :=
    (let? ix := Py.int x in
     let? iy := Py.int y in
     let? iw := Py.int w in
     let? ih := Py.int h in
     Ok {| App.x := ix * gtp; App.y := iy * gtp; App.w := iw * gtp; App.h := ih * gtp |}) in
  App.btn self [x; y] [w; h] = geometry /\ App.label self [x; y] [w; h] = geometry.
Proof.
  intros Hinit geometry. subst geometry. apply init_grid_system in Hinit as [Hgs _].
  unfold App.btn, App.label. rewrite Hgs, !comprehension_int_pair.
  destruct (Py.int x) as [ix|]; cbn [rbind]; [|split; reflexivity].
  destruct (Py.int y) as [iy|]; cbn [rbind]; [|split; reflexivity].
  destruct (Py.int w) as [iw|]; cbn [rbind]; [|split; reflexivity].
  destruct (Py.int h) as [ih|]; cbn [rbind]; [|split; reflexivity].
  cbn [map]. rewrite to_pixels_int, dim_to_pixels_int. split; reflexivity.
Qed.

(** C10, witness: [btn([1.9, 2.1], [2.7, 1])] on a 12 by 8 grid with
    [gtp = 50] is created at [(50, 100)] with size [(100, 50)], where
    [to_pixels] alone sends [[1.9, 2.1]] to [(95, 105)]. *)
Lemma btn_truncates_before_converting_witness :
  App.btn {| App.size_grid := [12; 8]; App.gtp := 50;
             App.grid_system := GridSystem.init 50; App.window := (600, 400) |}
    [PyFloat 1.9; PyFloat 2.1] [PyFloat 2.7; PyInt 1]
  = Ok {| App.x := 50; App.y := 100; App.w := 100; App.h := 50 |}.
Proof.
  exact (proj1 (btn_truncates_before_converting [PyInt 12; PyInt 8] 50 _
                  (PyFloat 1.9) (PyFloat 2.1) (PyFloat 2.7) (PyInt 1) eq_refl)).
Defined.

(** ** Rounding *)

Lemma div_half_even_nearest (m d : Z) :
  0 <= m -> 0 < d ->
  2 * Z.abs (m - Py.div_half_even m d * d) <= d.
Proof.
  intros Hm Hd. unfold Py.div_half_even. cbv zeta.
  pose proof (Z.div_mod m d ltac:(lia)) as Hdm.
  pose proof (Z.mod_pos_bound m d Hd) as Hr.
  remember (m / d) as q eqn:Eq. remember (m mod d) as r eqn:Er. clear Eq Er.
  destruct (Z.compare_spec (2 * r) d) as [Hc|Hc|Hc].
  - destruct (Z.even q); [replace (m - q * d) with r by lia
                         |replace (m - (q + 1) * d) with (r - d) by lia]; lia.
  - replace (m - q * d) with r by lia. lia.
  - replace (m - (q + 1) * d) with (r - d) by lia. lia.
Qed.

(** [round] of a float is an integer nearest to it. *)
Lemma round_float_nearest (f : float) (z : Z) :
  Py.round_float f = Ok z -> Spec.nearest_int f z.
Proof.
  unfold Py.round_float, Spec.nearest_int.
  destruct (Prim2SF f) as [s|s| |s m e]; try discriminate.
  - now intros [= <-].
  - destruct (0 <=? e) eqn:He; intros Hz.
    + assert (z = if s then - (Z.pos m * 2 ^ e) else Z.pos m * 2 ^ e) as -> by congruence.
      destruct s; unfold Py.signed; [|reflexivity].
      change (Z.neg m) with (- Z.pos m). ring.
    + apply Z.leb_gt in He.
      assert (Hd : 0 < 2 ^ (- e)) by (apply Z.pow_pos_nonneg; lia).
      pose proof (div_half_even_nearest (Z.pos m) (2 ^ (- e)) ltac:(lia) Hd) as Hn.
      assert (z = if s then - Py.div_half_even (Z.pos m) (2 ^ (- e))
                  else Py.div_half_even (Z.pos m) (2 ^ (- e))) as -> by congruence.
      remember (Py.div_half_even (Z.pos m) (2 ^ (- e))) as n eqn:En.
      remember (2 ^ (- e)) as d eqn:Ed. clear En Ed.
      destruct s; unfold Py.signed; [|exact Hn].
      change (Z.neg m) with (- Z.pos m).
      replace (- Z.pos m - - n * d) with (- (Z.pos m - n * d)) by ring.
      now rewrite Z.abs_opp.
Qed.

Lemma leb_excludes_gtb (a b : num) : Py.leb a b = true -> Py.gtb a b = false.
Proof. unfold Py.leb, Py.gtb. destruct (Py.compare a b) as [[]|]; congruence. Qed.

(** [max(g, v) >= g] for an integer [g], whatever [v] is. *)
Lemma max_int_lower_bound (g : Z) (v : num) :
  Py.leb (PyInt g) (Py.max (PyInt g) v) = true.
Proof.
  unfold Py.max. destruct (Py.gtb v (PyInt g)) eqn:Hgt.
  - unfold Py.gtb in Hgt. unfold Py.leb. destruct v as [y|f]; cbn [Py.compare] in *.
    + destruct (y ?= g) eqn:Hc; try discriminate.
      apply Z.compare_gt_iff in Hc. apply Z.compare_lt_iff in Hc. now rewrite Hc.
    + destruct (Py.compare_float_int f g) as [[]|]; try discriminate. reflexivity.
  - unfold Py.leb. cbn [Py.compare]. now rewrite Z.compare_refl.
Qed.

(** ** The handlers of [make_draggable], one by one *)

Ltac unfold_handler :=
  unfold bind, ret, get, modify, ask, ask_scaling, eval, command, external, Spec.after;
  cbn [state tk log fst snd].

Ltac split_result :=
  match goal with
  | |- context [rbind ?r _] =>
      lazymatch r with
      | rbind _ _ => fail
      | _ => destruct r; cbn [rbind state tk log fst snd]
      end
  | |- context [match ?r with Ok _ => _ | Raise _ => _ end] =>
      destruct r; cbn [rbind state tk log fst snd]
  end.

Section DragFacts.

Context {T : Type} `{Toolkit T}.
Variable self : App.t.

(** A release with ["moved"] unset is a click. *)
Lemma drag_on_release_click (e : Event) (c : Ctx Drag.State T) :
  Drag.moved (state c) = false ->
  Drag.on_release self e c =
  match invoke with
  | Some f => (Ok tt, Spec.after Invoke f c)
  | None => (Ok tt, c)
  end.
Proof.
  intros Hm. destruct c as [st t lg]. cbn [state] in Hm.
  unfold Drag.on_release. unfold_handler. rewrite Hm. cbn [negb state tk log fst snd].
  destruct invoke; reflexivity.
Qed.

(** A release with ["moved"] set commits the snapped position, if the
    queries and the arithmetic of the release go through. *)
Lemma drag_on_release_commit (e : Event) (c : Ctx Drag.State T) :
  Drag.moved (state c) = true ->
  Drag.on_release self e c =
  match Spec.snap_target self (tk c) with
  | Ok (gx, gy) =>
      let px := PyInt (gx * App.gtp self) in
      let py := PyInt (gy * App.gtp self) in
      (Ok tt, Spec.after (Place px py) (place px py) c)
  | Raise e => (Raise e, c)
  end.
Proof.
  intros Hm. destruct c as [st t lg]. cbn [state] in Hm.
  unfold Drag.on_release, Spec.snap_target. unfold_handler. rewrite Hm.
  cbn [negb state tk log fst snd].
  repeat split_result; reflexivity.
Qed.

(** A move event changes nothing of the state but ["moved"], which it sets
    when the delta is beyond the threshold, whether or not the rest of the
    handler goes through. *)
Lemma drag_on_motion_state (e : Event) (c : Ctx Drag.State T) :
  state (snd (Drag.on_motion e c)) =
  if Spec.exceeds (state c) e then Drag.set_moved true (state c) else state c.
Proof.
  destruct c as [st t lg]. unfold Drag.on_motion, Spec.exceeds. unfold_handler.
  destruct (App.delta (x_root e) _ _) as [dx|]; cbn [rbind state tk log fst snd]; [|reflexivity].
  destruct (App.delta (y_root e) _ _) as [dy|]; cbn [rbind state tk log fst snd]; [|reflexivity].
  destruct (Drag.beyond_threshold dx dy); unfold_handler;
    repeat split_result; reflexivity.
Qed.

Lemma within_not_exceeds (st : Drag.State) (e : Event) :
  Spec.within_threshold st e -> Spec.exceeds st e = false.
Proof.
  intros (dx & dy & Hx & Hy & Lx & Ly). unfold Spec.exceeds, Drag.beyond_threshold.
  rewrite Hx, Hy. now rewrite (leb_excludes_gtb _ _ Lx), (leb_excludes_gtb _ _ Ly).
Qed.

Lemma beyond_exceeds (st : Drag.State) (e : Event) :
  Spec.beyond_threshold st e -> Spec.exceeds st e = true.
Proof.
  intros (dx & dy & Hx & Hy & G). unfold Spec.exceeds, Drag.beyond_threshold.
  rewrite Hx, Hy. destruct G as [G|G]; rewrite G; [reflexivity|apply orb_true_r].
Qed.

(** Between press and release the state changes in ["moved"] only: it is
    set as soon as one move event is beyond the threshold, and stays set. *)
Lemma run_moves_state (ms : list (input T)) (c : Ctx Drag.State T) :
  Forall Spec.is_move ms ->
  state (run (drag_dispatch self) ms c) =
  if existsb (Spec.exceeds (state c)) (Spec.motions ms)
  then Drag.set_moved true (state c) else state c.
Proof.
  revert c. induction ms as [|i ms IH]; intros c Hms; [reflexivity|].
  inversion Hms as [|? ? Hi Hms']; subst.
  unfold run in *. cbn [fold_left]. rewrite (IH _ Hms').
  destruct i as [e|e|e|f]; cbn [Spec.is_move] in Hi; try contradiction;
    cbn [drag_dispatch Spec.motions existsb].
  - rewrite drag_on_motion_state.
    destruct (Spec.exceeds (state c) e) eqn:He; cbn [orb].
    + change (Spec.exceeds (Drag.set_moved true (state c))) with (Spec.exceeds (state c)).
      destruct (existsb _ _); reflexivity.
    + reflexivity.
  - reflexivity.
Qed.

Lemma existsb_within (st : Drag.State) (es : list Event) :
  Forall (Spec.within_threshold st) es -> existsb (Spec.exceeds st) es = false.
Proof.
  induction 1 as [|e es He _ IH]; [reflexivity|].
  cbn [existsb]. now rewrite (within_not_exceeds _ _ He), IH.
Qed.

Lemma existsb_beyond (st : Drag.State) (es : list Event) :
  Exists (Spec.beyond_threshold st) es -> existsb (Spec.exceeds st) es = true.
Proof.
  induction 1 as [e es He|e es _ IH]; cbn [existsb].
  - now rewrite (beyond_exceeds _ _ He).
  - rewrite IH. apply orb_true_r.
Qed.

(** A press that goes through has reset ["moved"] and stored the pointer
    position and the scaling the provider answered. *)
Lemma drag_on_press_ok (e : Event) (c c' : Ctx Drag.State T) :
  Drag.on_press e c = (Ok tt, c') ->
  Drag.moved (state c') = false
  /\ Drag.start_root_x (state c') = x_root e
  /\ Drag.start_root_y (state c') = y_root e
  /\ exists s : float,
      get_window_scaling (tk c) = Ok s /\ Drag.scaling (state c') = Some s.
Proof.
  destruct c as [st t lg]. unfold Drag.on_press. unfold_handler.
  destruct (get_window_scaling t) as [s|] eqn:Hs; cbn [state tk log fst snd]; [|discriminate].
  cbn [Drag.get_scaling Drag.set_scaling Drag.scaling].
  destruct (Py.truediv (PyInt (winfo_x t)) s); cbn [state tk log fst snd]; [|discriminate].
  destruct (Py.truediv (PyInt (winfo_y t)) s); cbn [state tk log fst snd]; [|discriminate].
  intros [= <-]. cbn. repeat split. now exists s.
Qed.

End DragFacts.

(** ** A press and the movement measured from it *)

Section PressFacts.

Context {T : Type} `{Toolkit T}.
Variable self : App.t.

(** A press of a drag that goes through has stored the pointer position, the
    scaling the provider answered and the widget's position divided by it. *)
Lemma drag_on_press_capture (e : Event) (c c' : Ctx Drag.State T) :
  Drag.on_press e c = (Ok tt, c') ->
  exists s sx sy : float,
    get_window_scaling (tk c) = Ok s
    /\ Py.truediv (PyInt (winfo_x (tk c))) s = Ok sx
    /\ Py.truediv (PyInt (winfo_y (tk c))) s = Ok sy
    /\ state c' = {| Drag.start_root_x := x_root e; Drag.start_root_y := y_root e;
                     Drag.scaling := Some s;
                     Drag.start_w_x := PyFloat sx; Drag.start_w_y := PyFloat sy;
                     Drag.moved := false |}.
Proof.
  destruct c as [st t lg]. unfold Drag.on_press. unfold_handler.
  destruct (get_window_scaling t) as [s|] eqn:Hs; cbn [state tk log fst snd]; [|discriminate].
  cbn [Drag.get_scaling Drag.set_scaling Drag.scaling].
  destruct (Py.truediv (PyInt (winfo_x t)) s) as [sx|] eqn:Hx;
    cbn [state tk log fst snd]; [|discriminate].
  destruct (Py.truediv (PyInt (winfo_y t)) s) as [sy|] eqn:Hy;
    cbn [state tk log fst snd]; [|discriminate].
  intros [= <-]. exists s, sx, sy. repeat split; try assumption; reflexivity.
Qed.

Lemma stays_within_threshold (st : Drag.State) (s : float) (e0 e : Event) :
  Drag.scaling st = Some s ->
  Drag.start_root_x st = x_root e0 -> Drag.start_root_y st = y_root e0 ->
  Logical.stays_within s e0 e -> Spec.within_threshold st e.
Proof.
  intros Hs Hx Hy (dx & dy & [Dx Dy] & Lx & Ly). exists dx, dy.
  unfold App.delta, Drag.get_scaling. rewrite Hs, Hx, Hy. repeat split; assumption.
Qed.

Lemma goes_beyond_threshold (st : Drag.State) (s : float) (e0 e : Event) :
  Drag.scaling st = Some s ->
  Drag.start_root_x st = x_root e0 -> Drag.start_root_y st = y_root e0 ->
  Logical.goes_beyond s e0 e -> Spec.beyond_threshold st e.
Proof.
  intros Hs Hx Hy (dx & dy & [Dx Dy] & G). exists dx, dy.
  unfold App.delta, Drag.get_scaling. rewrite Hs, Hx, Hy. repeat split; assumption.
Qed.

Lemma snap_target_spelled (t : T) :
  Spec.snap_target self t =
  (let? s := get_window_scaling t in
   let? cx := Py.truediv (PyInt (winfo_x t)) s in
   let? cy := Py.truediv (PyInt (winfo_y t)) s in
   let? qx := Py.truediv_int cx (App.gtp self) in
   let? gx := Py.round_float qx in
   let? qy := Py.truediv_int cy (App.gtp self) in
   let? gy := Py.round_float qy in
   Ok (gx, gy)).
Proof.
  unfold Spec.snap_target, App.to_grid.
  destruct (get_window_scaling t) as [s|]; cbn [rbind]; [|reflexivity].
  destruct (Py.truediv (PyInt (winfo_x t)) s) as [cx|]; cbn [rbind]; [|reflexivity].
  destruct (Py.truediv (PyInt (winfo_y t)) s) as [cy|]; cbn [rbind]; [|reflexivity].
  destruct (Py.truediv_int cx (App.gtp self)) as [qx|]; cbn [rbind]; [|reflexivity].
  destruct (Py.round_float qx) as [gx|]; cbn [rbind]; [|reflexivity].
  destruct (Py.truediv_int cy (App.gtp self)) as [qy|]; cbn [rbind]; [|reflexivity].
  destruct (Py.round_float qy) as [gy|]; reflexivity.
Qed.

End PressFacts.

(** ** Drag: snapping on release, click against drag *)

(** C2: a release with ["moved"] set reads the widget's position in logical
    pixels ([winfo / scaling]), rounds [pixel / gtp] to a nearest integer on
    each axis on its own, and places the widget at [grid * gtp]. *)
Theorem release_snaps_to_nearest_cell {T : Type} `{Toolkit T}
  (self : App.t) (e : Event) (c c' : Ctx Drag.State T) :
  Drag.moved (state c) = true ->
  Drag.on_release self e c = (Ok tt, c') ->
  exists (s cx cy qx qy : float) (gx gy : Z),
    get_window_scaling (tk c) = Ok s
    /\ Py.truediv (PyInt (winfo_x (tk c))) s = Ok cx
    /\ Py.truediv (PyInt (winfo_y (tk c))) s = Ok cy
    /\ Py.truediv_int cx (App.gtp self) = Ok qx
    /\ Py.truediv_int cy (App.gtp self) = Ok qy
    /\ Py.round_float qx = Ok gx /\ Spec.nearest_int qx gx
    /\ Py.round_float qy = Ok gy /\ Spec.nearest_int qy gy
    /\ c' = Spec.after (Place (PyInt (gx * App.gtp self)) (PyInt (gy * App.gtp self)))
              (place (PyInt (gx * App.gtp self)) (PyInt (gy * App.gtp self))) c.
Proof.
  intros Hm Hr. rewrite (drag_on_release_commit self e c Hm) in Hr.
  unfold Spec.snap_target, App.to_grid in Hr.
  destruct (get_window_scaling (tk c)) as [s|] eqn:Hs; cbn [rbind] in Hr; [|discriminate].
  destruct (Py.truediv (PyInt (winfo_x (tk c))) s) as [cx|] eqn:Hcx;
    cbn [rbind] in Hr; [|discriminate].
  destruct (Py.truediv (PyInt (winfo_y (tk c))) s) as [cy|] eqn:Hcy;
    cbn [rbind] in Hr; [|discriminate].
  destruct (Py.truediv_int cx (App.gtp self)) as [qx|] eqn:Hqx;
    cbn [rbind] in Hr; [|discriminate].
  destruct (Py.round_float qx) as [gx|] eqn:Hgx; cbn [rbind] in Hr; [|discriminate].
  destruct (Py.truediv_int cy (App.gtp self)) as [qy|] eqn:Hqy;
    cbn [rbind] in Hr; [|discriminate].
  destruct (Py.round_float qy) as [gy|] eqn:Hgy; cbn [rbind] in Hr; [|discriminate].
  injection Hr as <-.
  exists s, cx, cy, qx, qy, gx, gy.
  repeat split; auto using round_float_nearest.
Qed.

(** The snap law of the specification: with [gtp = 50], a drag that ends at
    logical pixel [(127, 148)] is committed at pixel [(150, 150)], grid
    [(3, 3)]. *)
Example snap_law :
  Drag.on_release (H := Sim.button) Example.app (Example.pointer 137 158)
    (Example.dragged 127 148)
  = (Ok tt, Spec.after (Place (PyInt (3 * 50)) (PyInt (3 * 50)))
              (Sim.move (PyInt 150) (PyInt 150)) (Example.dragged 127 148)).
Proof. reflexivity. Qed.

(** C2, witness: the release of [snap_law]. *)
Lemma release_snaps_to_nearest_cell_witness :
  exists (s cx cy qx qy : float) (gx gy : Z),
    Sim.scaling_now (tk (Example.dragged 127 148)) = Ok s
    /\ Py.truediv (PyInt 127) s = Ok cx
    /\ Py.truediv (PyInt 148) s = Ok cy
    /\ Py.truediv_int cx 50 = Ok qx
    /\ Py.truediv_int cy 50 = Ok qy
    /\ Py.round_float qx = Ok gx /\ Spec.nearest_int qx gx
    /\ Py.round_float qy = Ok gy /\ Spec.nearest_int qy gy
    /\ Spec.after (Place (PyInt 150) (PyInt 150))
         (Sim.move (PyInt 150) (PyInt 150)) (Example.dragged 127 148)
       = Spec.after (Place (PyInt (gx * 50)) (PyInt (gy * 50)))
           (Sim.move (PyInt (gx * 50)) (PyInt (gy * 50))) (Example.dragged 127 148).
Proof.
  exact (release_snaps_to_nearest_cell (H := Sim.button) Example.app
           (Example.pointer 137 158) (Example.dragged 127 148) _ eq_refl eq_refl).
Defined.

(** C3: after a press that went through at the scaling [s], with only move
    events (and changes from outside) before the release, movement being
    the pointer's offset from the press divided by [s]: if every move event
    stayed within 3 logical pixels of the press on both axes, the release
    invokes the widget's activation, when it has one, and does nothing
    else; if one move event went beyond 3 logical pixels on an axis, the
    release commits the snapped position, [round(winfo / scaling / gtp)]
    cells times [gtp] per axis (unless its own queries or arithmetic
    raise), and does not invoke. *)
Theorem click_versus_drag {T : Type} `{Toolkit T}
  (self : App.t) (e0 e1 : Event) (ms : list (input T))
  (c0 c1 : Ctx Drag.State T) :
  Drag.on_press e0 c0 = (Ok tt, c1) ->
  Forall Spec.is_move ms ->
  let c2 := run (drag_dispatch self) ms c1 in
  exists s : float,
    get_window_scaling (tk c0) = Ok s
    /\ (Forall (Logical.stays_within s e0) (Spec.motions ms) ->
        Drag.on_release self e1 c2 =
        match invoke with
        | Some f => (Ok tt, Spec.after Invoke f c2)
        | None => (Ok tt, c2)
        end)
    /\ (Exists (Logical.goes_beyond s e0) (Spec.motions ms) ->
        Drag.on_release self e1 c2 =
        match (let? s' := get_window_scaling (tk c2) in
               let? cx := Py.truediv (PyInt (winfo_x (tk c2))) s' in
               let? cy := Py.truediv (PyInt (winfo_y (tk c2))) s' in
               let? qx := Py.truediv_int cx (App.gtp self) in
               let? gx := Py.round_float qx in
               let? qy := Py.truediv_int cy (App.gtp self) in
               let? gy := Py.round_float qy in
               Ok (gx, gy)) with
        | Ok (gx, gy) =>
            let px := PyInt (gx * App.gtp self) in
            let py := PyInt (gy * App.gtp self) in
            (Ok tt, Spec.after (Place px py) (place px py) c2)
        | Raise e => (Raise e, c2)
        end).
Proof.
  intros Hp Hms c2.
  destruct (drag_on_press_capture e0 c0 c1 Hp) as (s & sx & sy & Hs & _ & _ & Hst1).
  pose proof (run_moves_state self ms c1 Hms) as Hst. fold c2 in Hst.
  exists s. split; [exact Hs|]. split; intros Hev.
  - apply drag_on_release_click. rewrite Hst.
    rewrite existsb_within; [now rewrite Hst1|].
    revert Hev. apply Forall_impl. intros e.
    apply stays_within_threshold; now rewrite Hst1.
  - rewrite <- snap_target_spelled. apply drag_on_release_commit. rewrite Hst.
    rewrite existsb_beyond; [reflexivity|].
    revert Hev. apply Exists_impl. intros e.
    apply goes_beyond_threshold; now rewrite Hst1.
Qed.

(** C3, witness: a button at logical [(50, 50)] on a display of scaling 2.0,
    pressed at [(60, 60)].  Moved by [(5, 4)] screen pixels, which are
    [(2.5, 2.0)] logical pixels, and released, it is invoked and not
    committed; moved on by 80 screen pixels and released, it is committed at
    [(100, 50)] and not invoked. *)
Lemma click_versus_drag_witness :
  let c0 : Ctx Drag.State Sim.t :=
    {| state := Drag.state0; tk := Sim.widget 2 100 100 200 100; log := [] |} in
  let c1 := snd (Drag.on_press (H := Sim.button) (Example.pointer 60 60) c0) in
  let near := [Motion (Example.pointer 65 64)] in
  let far := [Motion (Example.pointer 65 64); Motion (Example.pointer 140 60)] in
  Drag.on_release (H := Sim.button) Example.app (Example.pointer 65 64)
    (run (drag_dispatch (H := Sim.button) Example.app) near c1)
  = (Ok tt, Spec.after Invoke Sim.click
              (run (drag_dispatch (H := Sim.button) Example.app) near c1))
  /\ Drag.on_release (H := Sim.button) Example.app (Example.pointer 140 60)
       (run (drag_dispatch (H := Sim.button) Example.app) far c1)
     = (Ok tt, Spec.after (Place (PyInt 100) (PyInt 50))
                 (Sim.move (PyInt 100) (PyInt 50))
                 (run (drag_dispatch (H := Sim.button) Example.app) far c1)).
Proof.
  intros c0 c1 near far. split.
  - destruct (click_versus_drag (H := Sim.button) Example.app
                (Example.pointer 60 60) (Example.pointer 65 64) near c0 c1 eq_refl)
      as (s & Hs & Hclick & _); [repeat constructor|].
    assert (s = 2%float) as -> by (vm_compute in Hs; congruence).
    apply Hclick. repeat constructor.
    exists 2.5%float, 2%float. repeat split.
  - destruct (click_versus_drag (H := Sim.button) Example.app
                (Example.pointer 60 60) (Example.pointer 140 60) far c0 c1 eq_refl)
      as (s & Hs & _ & Hdrag); [repeat constructor|].
    assert (s = 2%float) as -> by (vm_compute in Hs; congruence).
    rewrite Hdrag; [reflexivity|].
    apply Exists_cons_tl, Exists_cons_hd.
    exists 40%float, 0%float. repeat split. now left.
Defined.

(** ["moved"] is not reset by moving back: a pointer that went to
    [(100, 100)] and came back to one pixel from the press still ends in a
    commit, here at the cell the widget started from, and no activation. *)
Example moved_is_sticky :
  run (drag_dispatch (H := Sim.button) Example.app)
    [Press (Example.pointer 60 60); Motion (Example.pointer 100 100);
     Motion (Example.pointer 61 61); Release (Example.pointer 61 61)]
    (Example.draggable 50 50)
  = {| state := {| Drag.start_root_x := 60; Drag.start_root_y := 60;
                   Drag.scaling := Some 1%float;
                   Drag.start_w_x := PyFloat 50; Drag.start_w_y := PyFloat 50;
                   Drag.moved := true |};
       tk := Sim.widget 1 50 50 100 50;
       log := [Lift; Place (PyFloat 90) (PyFloat 90); UpdateIdletasks;
               Place (PyFloat 51) (PyFloat 51); UpdateIdletasks;
               Place (PyInt 50) (PyInt 50)] |}.
Proof. reflexivity. Qed.

(** ** The handlers of [make_resizable] *)

Section ResizeFacts.

Context {T : Type} `{Toolkit T}.
Variable self : App.t.

(** A move event of a resize asks the provider anew, and uses the answer. *)
Lemma resize_on_motion_eq (e : Event) (c : Ctx Resize.State T) :
  Resize.on_motion self e c =
  match (let? s := get_window_scaling (tk c) in
         let? dx := App.delta (x_root e) (Resize.start_root_x (state c)) s in
         let? dy := App.delta (y_root e) (Resize.start_root_y (state c)) s in
         let? new_w := Resize.clamp_size self (Resize.start_w (state c)) dx in
         let? new_h := Resize.clamp_size self (Resize.start_h (state c)) dy in
         Ok (new_w, new_h)) with
  | Ok (new_w, new_h) =>
      (Ok tt, Spec.after (Configure new_w new_h) (configure new_w new_h) c)
  | Raise err => (Raise err, c)
  end.
Proof.
  destruct c as [st t lg]. unfold Resize.on_motion. unfold_handler.
  repeat split_result; reflexivity.
Qed.

Lemma resize_on_release_eq (e : Event) (c : Ctx Resize.State T) :
  Resize.on_release self e c =
  match Spec.size_target self (tk c) with
  | Ok (gw, gh) =>
      let pw := PyInt (gw * App.gtp self) in
      let ph := PyInt (gh * App.gtp self) in
      (Ok tt, Spec.after (Configure pw ph) (configure pw ph) c)
  | Raise err => (Raise err, c)
  end.
Proof.
  destruct c as [st t lg]. unfold Resize.on_release, Spec.size_target. unfold_handler.
  repeat split_result; reflexivity.
Qed.

Lemma clamp_size_lower_bound (start : num) (d : float) (v : num) :
  Resize.clamp_size self start d = Ok v ->
  (exists u : num, Py.add start (PyFloat d) = Ok u /\ v = Py.max (PyInt (App.gtp self)) u)
  /\ Py.leb (PyInt (App.gtp self)) v = true.
Proof.
  unfold Resize.clamp_size. destruct (Py.add start (PyFloat d)) as [u|]; cbn [rbind]; [|discriminate].
  intros [= <-]. split; [now exists u|apply max_int_lower_bound].
Qed.

Lemma to_grid_size_lower_bound (curr : float) (g : Z) :
  Resize.to_grid_size self curr = Ok g ->
  (exists r : Z, App.to_grid self curr = Ok r /\ g = Z.max 1 r) /\ 1 <= g.
Proof.
  unfold Resize.to_grid_size. destruct (App.to_grid self curr) as [r|]; cbn [rbind]; [|discriminate].
  intros [= <-]. split; [now exists r|lia].
Qed.

(** A press of a resize that goes through has stored the pointer position
    and the widget's size divided by the scaling the provider answered. *)
Lemma resize_on_press_capture (e : Event) (c c' : Ctx Resize.State T) :
  Resize.on_press e c = (Ok tt, c') ->
  exists s sw sh : float,
    get_window_scaling (tk c) = Ok s
    /\ Py.truediv (PyInt (winfo_width (tk c))) s = Ok sw
    /\ Py.truediv (PyInt (winfo_height (tk c))) s = Ok sh
    /\ state c' = {| Resize.start_root_x := x_root e; Resize.start_root_y := y_root e;
                     Resize.start_w := PyFloat sw; Resize.start_h := PyFloat sh |}.
Proof.
  destruct c as [st t lg]. unfold Resize.on_press. unfold_handler.
  destruct (get_window_scaling t) as [s|] eqn:Hs; cbn [state tk log fst snd]; [|discriminate].
  destruct (Py.truediv (PyInt (winfo_width t)) s) as [sw|] eqn:Hw;
    cbn [state tk log fst snd]; [|discriminate].
  destruct (Py.truediv (PyInt (winfo_height t)) s) as [sh|] eqn:Hh;
    cbn [state tk log fst snd]; [|discriminate].
  intros [= <-]. exists s, sw, sh. repeat split; try assumption; reflexivity.
Qed.

(** The move events of a resize leave the state as the press wrote it. *)
Lemma resize_run_moves_state (ms : list (input T)) (c : Ctx Resize.State T) :
  Forall Spec.is_move ms -> state (run (resize_dispatch self) ms c) = state c.
Proof.
  revert c. induction ms as [|i ms IH]; intros c Hms; [reflexivity|].
  inversion Hms as [|? ? Hi Hms']; subst.
  unfold run in *. cbn [fold_left]. rewrite (IH _ Hms').
  destruct i as [e|e|e|f]; cbn [Spec.is_move] in Hi; try contradiction;
    cbn [resize_dispatch]; [|reflexivity].
  rewrite resize_on_motion_eq.
  destruct (rbind _ _) as [[new_w new_h]|]; reflexivity.
Qed.

End ResizeFacts.

(** C7: a move event of a resize writes [max(gtp, start + delta)] per axis,
    [delta] being the pointer's offset from the stored press position
    divided by the scaling, which is never less than [gtp]; the release
    commits [max(1, round(size / gtp))] cells per axis, [size] being the
    widget's size divided by the scaling and [round] a nearest integer,
    never less than [(1, 1)], as the size [cells * gtp]; and between a
    press and its release the stored start values are the pointer position
    of the press and the widget's size at the press divided by the scaling
    of the press. *)
Theorem resize_never_below_one_cell {T : Type} `{Toolkit T}
  (self : App.t) (e : Event) (c : Ctx Resize.State T) :
  (forall c', Resize.on_motion self e c = (Ok tt, c') ->
     exists (s dx dy : float) (new_w new_h : num),
       get_window_scaling (tk c) = Ok s
       /\ Py.truediv (PyInt (x_root e - Resize.start_root_x (state c))) s = Ok dx
       /\ Py.truediv (PyInt (y_root e - Resize.start_root_y (state c))) s = Ok dy
       /\ (exists u, Py.add (Resize.start_w (state c)) (PyFloat dx) = Ok u
                     /\ new_w = Py.max (PyInt (App.gtp self)) u)
       /\ (exists u, Py.add (Resize.start_h (state c)) (PyFloat dy) = Ok u
                     /\ new_h = Py.max (PyInt (App.gtp self)) u)
       /\ Py.leb (PyInt (App.gtp self)) new_w = true
       /\ Py.leb (PyInt (App.gtp self)) new_h = true
       /\ c' = Spec.after (Configure new_w new_h) (configure new_w new_h) c)
  /\ (forall c', Resize.on_release self e c = (Ok tt, c') ->
     exists (s cw ch qw qh : float) (rw rh gw gh : Z),
       get_window_scaling (tk c) = Ok s
       /\ Py.truediv (PyInt (winfo_width (tk c))) s = Ok cw
       /\ Py.truediv (PyInt (winfo_height (tk c))) s = Ok ch
       /\ Py.truediv_int cw (App.gtp self) = Ok qw
       /\ Py.round_float qw = Ok rw /\ Spec.nearest_int qw rw /\ gw = Z.max 1 rw
       /\ Py.truediv_int ch (App.gtp self) = Ok qh
       /\ Py.round_float qh = Ok rh /\ Spec.nearest_int qh rh /\ gh = Z.max 1 rh
       /\ 1 <= gw /\ 1 <= gh
       /\ c' = Spec.after
                 (Configure (PyInt (gw * App.gtp self)) (PyInt (gh * App.gtp self)))
                 (configure (PyInt (gw * App.gtp self)) (PyInt (gh * App.gtp self))) c)
  /\ (forall (e0 : Event) (c0 c1 : Ctx Resize.State T) (ms : list (input T)),
     Resize.on_press e0 c0 = (Ok tt, c1) ->
     Forall Spec.is_move ms ->
     c = run (resize_dispatch self) ms c1 ->
     exists s0 sw sh : float,
       get_window_scaling (tk c0) = Ok s0
       /\ Py.truediv (PyInt (winfo_width (tk c0))) s0 = Ok sw
       /\ Py.truediv (PyInt (winfo_height (tk c0))) s0 = Ok sh
       /\ state c = {| Resize.start_root_x := x_root e0; Resize.start_root_y := y_root e0;
                       Resize.start_w := PyFloat sw; Resize.start_h := PyFloat sh |}).
Proof.
  split; [|split].
  - intros c' Hr. rewrite resize_on_motion_eq in Hr. unfold App.delta in Hr.
    destruct (get_window_scaling (tk c)) as [s|] eqn:Hs; cbn [rbind] in Hr; [|discriminate].
    destruct (Py.truediv (PyInt (x_root e - _)) s) as [dx|] eqn:Hdx;
      cbn [rbind] in Hr; [|discriminate].
    destruct (Py.truediv (PyInt (y_root e - _)) s) as [dy|] eqn:Hdy;
      cbn [rbind] in Hr; [|discriminate].
    destruct (Resize.clamp_size self _ dx) as [new_w|] eqn:Hw; cbn [rbind] in Hr; [|discriminate].
    destruct (Resize.clamp_size self _ dy) as [new_h|] eqn:Hh; cbn [rbind] in Hr; [|discriminate].
    injection Hr as <-.
    apply clamp_size_lower_bound in Hw as [Hw Lw], Hh as [Hh Lh].
    exists s, dx, dy, new_w, new_h. repeat split; assumption.
  - intros c' Hr. rewrite resize_on_release_eq in Hr.
    unfold Spec.size_target, Resize.to_grid_size, App.to_grid in Hr.
    destruct (get_window_scaling (tk c)) as [s|] eqn:Hs; cbn [rbind] in Hr; [|discriminate].
    destruct (Py.truediv (PyInt (winfo_width (tk c))) s) as [cw|] eqn:Hcw;
      cbn [rbind] in Hr; [|discriminate].
    destruct (Py.truediv (PyInt (winfo_height (tk c))) s) as [ch|] eqn:Hch;
      cbn [rbind] in Hr; [|discriminate].
    destruct (Py.truediv_int cw (App.gtp self)) as [qw|] eqn:Hqw;
      cbn [rbind] in Hr; [|discriminate].
    destruct (Py.round_float qw) as [rw|] eqn:Hrw; cbn [rbind] in Hr; [|discriminate].
    destruct (Py.truediv_int ch (App.gtp self)) as [qh|] eqn:Hqh;
      cbn [rbind] in Hr; [|discriminate].
    destruct (Py.round_float qh) as [rh|] eqn:Hrh; cbn [rbind] in Hr; [|discriminate].
    injection Hr as <-.
    exists s, cw, ch, qw, qh, rw, rh, (Z.max 1 rw), (Z.max 1 rh).
    repeat split; auto using round_float_nearest; lia.
  - intros e0 c0 c1 ms Hp Hms ->.
    destruct (resize_on_press_capture e0 c0 c1 Hp) as (s0 & sw & sh & Hs & Hw & Hh & Hst).
    exists s0, sw, sh. rewrite (resize_run_moves_state self ms c1 Hms).
    repeat split; assumption.
Qed.

(** C7, witness: a widget of logical size 100 by 50 on a display of scaling
    2.0, its handle pressed at [(150, 100)].  Dragged by [(60, 60)] screen
    pixels it is written at 130 by 80; dragged to [(20, 20)] it is written
    at [gtp] by [gtp].  A widget measuring 130 by 80 at release is committed
    as 3 by 2 cells, one measuring 20 by 20 as one cell by one cell. *)
Lemma resize_never_below_one_cell_witness :
  let app := Example.app in
  let c0 : Ctx Resize.State Sim.t :=
    {| state := Resize.state0; tk := Sim.widget 2 100 100 200 100; log := [] |} in
  let c := snd (Resize.on_press (H := Sim.button) (Example.pointer 150 100) c0) in
  (exists s0 sw sh : float,
      Ok 2%float = Ok s0
      /\ Py.truediv (PyInt 200) s0 = Ok sw
      /\ Py.truediv (PyInt 100) s0 = Ok sh
      /\ {| Resize.start_root_x := 150; Resize.start_root_y := 100;
            Resize.start_w := PyFloat 100; Resize.start_h := PyFloat 50 |}
         = {| Resize.start_root_x := 150; Resize.start_root_y := 100;
              Resize.start_w := PyFloat sw; Resize.start_h := PyFloat sh |})
  /\ (exists (s dx dy : float) (new_w new_h : num),
        Ok 2%float = Ok s
        /\ Py.truediv (PyInt (210 - 150)) s = Ok dx
        /\ Py.truediv (PyInt (160 - 100)) s = Ok dy
        /\ (exists u, Py.add (PyFloat 100) (PyFloat dx) = Ok u /\ new_w = Py.max (PyInt 50) u)
        /\ (exists u, Py.add (PyFloat 50) (PyFloat dy) = Ok u /\ new_h = Py.max (PyInt 50) u)
        /\ Py.leb (PyInt 50) new_w = true
        /\ Py.leb (PyInt 50) new_h = true
        /\ Spec.after (Configure (PyFloat 130) (PyFloat 80))
             (Sim.resize (PyFloat 130) (PyFloat 80)) c
           = Spec.after (Configure new_w new_h) (Sim.resize new_w new_h) c)
  /\ (exists (s dx dy : float) (new_w new_h : num),
        Ok 2%float = Ok s
        /\ Py.truediv (PyInt (20 - 150)) s = Ok dx
        /\ Py.truediv (PyInt (20 - 100)) s = Ok dy
        /\ (exists u, Py.add (PyFloat 100) (PyFloat dx) = Ok u /\ new_w = Py.max (PyInt 50) u)
        /\ (exists u, Py.add (PyFloat 50) (PyFloat dy) = Ok u /\ new_h = Py.max (PyInt 50) u)
        /\ Py.leb (PyInt 50) new_w = true
        /\ Py.leb (PyInt 50) new_h = true
        /\ Spec.after (Configure (PyInt 50) (PyInt 50))
             (Sim.resize (PyInt 50) (PyInt 50)) c
           = Spec.after (Configure new_w new_h) (Sim.resize new_w new_h) c)
  /\ (exists (s cw ch qw qh : float) (rw rh gw gh : Z),
        Ok 1%float = Ok s
        /\ Py.truediv (PyInt 130) s = Ok cw
        /\ Py.truediv (PyInt 80) s = Ok ch
        /\ Py.truediv_int cw 50 = Ok qw
        /\ Py.round_float qw = Ok rw /\ Spec.nearest_int qw rw /\ gw = Z.max 1 rw
        /\ Py.truediv_int ch 50 = Ok qh
        /\ Py.round_float qh = Ok rh /\ Spec.nearest_int qh rh /\ gh = Z.max 1 rh
        /\ 1 <= gw /\ 1 <= gh
        /\ Spec.after (Configure (PyInt 150) (PyInt 100))
             (Sim.resize (PyInt 150) (PyInt 100)) (Example.resizable 130 80)
           = Spec.after (Configure (PyInt (gw * 50)) (PyInt (gh * 50)))
               (Sim.resize (PyInt (gw * 50)) (PyInt (gh * 50))) (Example.resizable 130 80))
  /\ (exists (s cw ch qw qh : float) (rw rh gw gh : Z),
        Ok 1%float = Ok s
        /\ Py.truediv (PyInt 20) s = Ok cw
        /\ Py.truediv (PyInt 20) s = Ok ch
        /\ Py.truediv_int cw 50 = Ok qw
        /\ Py.round_float qw = Ok rw /\ Spec.nearest_int qw rw /\ gw = Z.max 1 rw
        /\ Py.truediv_int ch 50 = Ok qh
        /\ Py.round_float qh = Ok rh /\ Spec.nearest_int qh rh /\ gh = Z.max 1 rh
        /\ 1 <= gw /\ 1 <= gh
        /\ Spec.after (Configure (PyInt 50) (PyInt 50))
             (Sim.resize (PyInt 50) (PyInt 50)) (Example.resizable 20 20)
           = Spec.after (Configure (PyInt (gw * 50)) (PyInt (gh * 50)))
               (Sim.resize (PyInt (gw * 50)) (PyInt (gh * 50))) (Example.resizable 20 20)).
Proof.
  intros app c0 c. split; [|split; [|split; [|split]]].
  - exact (proj2 (proj2 (resize_never_below_one_cell (H := Sim.button) app
                    (Example.pointer 210 160) c))
             (Example.pointer 150 100) c0 c [] eq_refl (Forall_nil _) eq_refl).
  - exact (proj1 (resize_never_below_one_cell (H := Sim.button) app
                    (Example.pointer 210 160) c) _ eq_refl).
  - exact (proj1 (resize_never_below_one_cell (H := Sim.button) app
                    (Example.pointer 20 20) c) _ eq_refl).
  - exact (proj1 (proj2 (resize_never_below_one_cell (H := Sim.button) app
                    (Example.pointer 210 160) (Example.resizable 130 80))) _ eq_refl).
  - exact (proj1 (proj2 (resize_never_below_one_cell (H := Sim.button) app
                    (Example.pointer 20 20) (Example.resizable 20 20))) _ eq_refl).
Defined.

(** ** Which scaling a gesture uses *)

Section ScalingFacts.

Context {T : Type} `{Toolkit T}.
Variable self : App.t.

(** A move event of a drag reads the scaling from the state and asks
    nothing of the provider. *)
Lemma drag_on_motion_ok (e : Event) (c c' : Ctx Drag.State T) :
  Drag.on_motion e c = (Ok tt, c') ->
  exists (dx dy : float) (new_x new_y : num),
    App.delta (x_root e) (Drag.start_root_x (state c)) (Drag.get_scaling (state c)) = Ok dx
    /\ App.delta (y_root e) (Drag.start_root_y (state c)) (Drag.get_scaling (state c)) = Ok dy
    /\ Py.add (Drag.start_w_x (state c)) (PyFloat dx) = Ok new_x
    /\ Py.add (Drag.start_w_y (state c)) (PyFloat dy) = Ok new_y
    /\ tk c' = update_idletasks (place new_x new_y (tk c))
    /\ log c' = log c ++ [Place new_x new_y; UpdateIdletasks].
Proof.
  destruct c as [st t lg]. unfold Drag.on_motion. unfold_handler.
  destruct (App.delta (x_root e) _ _) as [dx|]; cbn [rbind state tk log fst snd]; [|discriminate].
  destruct (App.delta (y_root e) _ _) as [dy|]; cbn [rbind state tk log fst snd]; [|discriminate].
  destruct (Drag.beyond_threshold dx dy); unfold_handler;
    (destruct (Py.add (Drag.start_w_x st) (PyFloat dx)) as [new_x|] eqn:Ax;
       cbn [rbind state tk log fst snd]; [|discriminate]);
    (destruct (Py.add (Drag.start_w_y st) (PyFloat dy)) as [new_y|] eqn:Ay;
       cbn [rbind state tk log fst snd]; [|discriminate]);
    intros [= <-]; exists dx, dy, new_x, new_y; cbn [state tk log];
    rewrite <- app_assoc; repeat split; assumption.
Qed.

(** Between press and release the captured scaling and start position stay
    what the press stored. *)
Lemma run_moves_keeps_capture (ms : list (input T)) (c : Ctx Drag.State T) :
  Forall Spec.is_move ms ->
  let c' := run (drag_dispatch self) ms c in
  Drag.scaling (state c') = Drag.scaling (state c)
  /\ Drag.start_root_x (state c') = Drag.start_root_x (state c)
  /\ Drag.start_root_y (state c') = Drag.start_root_y (state c)
  /\ Drag.start_w_x (state c') = Drag.start_w_x (state c)
  /\ Drag.start_w_y (state c') = Drag.start_w_y (state c).
Proof.
  intros Hms c'. subst c'. rewrite (run_moves_state self ms c Hms).
  destruct (existsb _ _); repeat split.
Qed.

End ScalingFacts.

(** X1: drag gestures keep one scaling.  Every move event of a drag, however
    the display changes meanwhile, divides the pointer's offset from the
    press by the scaling [s] the provider answered at the press of that
    gesture, and places the widget at the position it had at the press,
    [winfo / s], plus that quotient, per axis. *)
Theorem drag_uses_the_scaling_of_the_press {T : Type} `{Toolkit T}
  (self : App.t) (e0 e : Event) (ms : list (input T))
  (c0 c1 c3 : Ctx Drag.State T) :
  Drag.on_press e0 c0 = (Ok tt, c1) ->
  Forall Spec.is_move ms ->
  let c2 := run (drag_dispatch self) ms c1 in
  Drag.on_motion e c2 = (Ok tt, c3) ->
  exists s sx sy dx dy : float,
    get_window_scaling (tk c0) = Ok s
    /\ Py.truediv (PyInt (winfo_x (tk c0))) s = Ok sx
    /\ Py.truediv (PyInt (winfo_y (tk c0))) s = Ok sy
    /\ Py.truediv (PyInt (x_root e - x_root e0)) s = Ok dx
    /\ Py.truediv (PyInt (y_root e - y_root e0)) s = Ok dy
    /\ tk c3 = update_idletasks
                 (place (PyFloat (sx + dx)) (PyFloat (sy + dy)) (tk c2))
    /\ log c3 = log c2 ++ [Place (PyFloat (sx + dx)) (PyFloat (sy + dy)); UpdateIdletasks].
Proof.
  intros Hp Hms c2 Hm.
  destruct (drag_on_press_capture e0 c0 c1 Hp) as (s & sx & sy & Hs & Hsx & Hsy & Hst1).
  destruct (run_moves_keeps_capture self ms c1 Hms) as (Ks & Kx & Ky & Kwx & Kwy).
  fold c2 in Ks, Kx, Ky, Kwx, Kwy.
  destruct (drag_on_motion_ok e _ _ Hm) as (dx & dy & nx & ny & Dx & Dy & Ax & Ay & Ht & L).
  unfold App.delta, Drag.get_scaling in Dx, Dy.
  rewrite Ks, Kx, Hst1 in Dx. rewrite Ks, Ky, Hst1 in Dy.
  rewrite Kwx, Hst1 in Ax. rewrite Kwy, Hst1 in Ay.
  cbn [Drag.scaling Drag.start_root_x Drag.start_root_y Drag.start_w_x Drag.start_w_y] in *.
  injection Ax as <-. injection Ay as <-.
  exists s, sx, sy, dx, dy. repeat split; assumption.
Qed.

(** X1, witness: a button at physical [(100, 100)] pressed at [(60, 60)] at
    scaling 2.0, hence at logical [(50, 50)]; the scaling changes to 1.0;
    the move to [(160, 110)] still divides by 2.0 and places the widget at
    [(50 + 50, 50 + 25)]. *)
Lemma drag_uses_the_scaling_of_the_press_witness :
  let c0 : Ctx Drag.State Sim.t :=
    {| state := Drag.state0; tk := Sim.widget 2 100 100 200 100; log := [] |} in
  let c1 := snd (Drag.on_press (H := Sim.button) (Example.pointer 60 60) c0) in
  let ms := [External (Sim.set_scaling (Ok 1%float))] in
  let c2 := run (drag_dispatch (H := Sim.button) Example.app) ms c1 in
  exists s sx sy dx dy : float,
    Ok 2%float = Ok s
    /\ Py.truediv (PyInt 100) s = Ok sx
    /\ Py.truediv (PyInt 100) s = Ok sy
    /\ Py.truediv (PyInt (160 - 60)) s = Ok dx
    /\ Py.truediv (PyInt (110 - 60)) s = Ok dy
    /\ Sim.move (PyFloat 100) (PyFloat 75) (tk c2)
       = Sim.move (PyFloat (sx + dx)) (PyFloat (sy + dy)) (tk c2)
    /\ [Lift; Place (PyFloat 100) (PyFloat 75); UpdateIdletasks]
       = log c2 ++ [Place (PyFloat (sx + dx)) (PyFloat (sy + dy)); UpdateIdletasks].
Proof.
  intros c0 c1 ms c2.
  refine (drag_uses_the_scaling_of_the_press (H := Sim.button) Example.app
            (Example.pointer 60 60) (Example.pointer 160 110) ms
            c0 c1 _ eq_refl _ eq_refl).
  repeat constructor.
Defined.

(** C6, on the code, for a resize: a 100 by 50 widget whose handle is pressed at
    [(150, 100)] while the scaling is 1.0; the scaling then changes to 2.0
    and the pointer moves to [(250, 100)].  The handler divides the 100
    pixels of movement by 2.0, the answer at the move, and writes the width
    150; with the scaling of the press it would be 200. *)
Theorem resize_motion_asks_the_provider_again :
  let press := Resize.on_press (H := Sim.button) (Example.pointer 150 100)
                 (Example.resizable 100 50) in
  let c2 := snd (external (Sim.set_scaling (Ok 2%float)) (snd press)) in
  fst press = Ok tt
  /\ Resize.start_w (state c2) = PyFloat 100
  /\ Resize.on_motion (H := Sim.button) Example.app (Example.pointer 250 100) c2
     = (Ok tt, Spec.after (Configure (PyFloat 150) (PyInt 50))
                 (Sim.resize (PyFloat 150) (PyInt 50)) c2)
  /\ (let? dx := App.delta 250 150 1 in Resize.clamp_size Example.app (PyFloat 100) dx)
     = Ok (PyFloat 200).
Proof. repeat split. Qed.

(** ** When the scaling provider cannot answer *)

Section ProviderFailure.

Context {T : Type} `{Toolkit T}.
Variable self : App.t.

(** [on_press] of a drag has no [try] around the query: the exception
    leaves the handler, after the pointer position was stored and before
    anything else was. *)
Lemma drag_on_press_provider_failure (e : Event) (c : Ctx Drag.State T) (err : exn) :
  get_window_scaling (tk c) = Raise err ->
  Drag.on_press e c =
  (Raise err,
   {| state := Drag.set_start_root_y (y_root e) (Drag.set_start_root_x (x_root e) (state c));
      tk := tk c; log := log c |}).
Proof.
  intros Hs. destruct c as [st t lg]. cbn [tk] in Hs.
  unfold Drag.on_press. unfold_handler. now rewrite Hs.
Qed.

Lemma drag_on_release_provider_failure (e : Event) (c : Ctx Drag.State T) (err : exn) :
  Drag.moved (state c) = true ->
  get_window_scaling (tk c) = Raise err ->
  Drag.on_release self e c = (Raise err, c).
Proof.
  intros Hm Hs. rewrite (drag_on_release_commit self e c Hm).
  unfold Spec.snap_target. now rewrite Hs.
Qed.

Lemma resize_provider_failure (e : Event) (c : Ctx Resize.State T) (err : exn) :
  get_window_scaling (tk c) = Raise err ->
  fst (Resize.on_press e c) = Raise err
  /\ Resize.on_motion self e c = (Raise err, c)
  /\ Resize.on_release self e c = (Raise err, c).
Proof.
  intros Hs. split; [|split].
  - destruct c as [st t lg]. cbn [tk] in Hs.
    unfold Resize.on_press. unfold_handler. now rewrite Hs.
  - rewrite resize_on_motion_eq. now rewrite Hs.
  - rewrite resize_on_release_eq. unfold Spec.size_target. now rewrite Hs.
Qed.

End ProviderFailure.

(** The overlay draws with 1.0 when the provider raises. *)
Lemma overlay_falls_back_to_1 (self : DebugLayer.t) (err : exn) (mode : string) (w h : Z) :
  DebugLayer._actual_draw self
    {| DebugLayer.scaling_answer := Raise err; DebugLayer.appearance_mode := mode;
       DebugLayer.canv_w := w; DebugLayer.canv_h := h |}
  = DebugLayer._actual_draw self
      {| DebugLayer.scaling_answer := Ok 1%float; DebugLayer.appearance_mode := mode;
         DebugLayer.canv_w := w; DebugLayer.canv_h := h |}.
Proof. reflexivity. Qed.

(** C9, on the code: while the provider raises, the overlay is drawn as
    with scaling 1.0, but the press and the release of a drag and the three
    handlers of a resize raise what the provider raised; nothing is
    committed. *)
Theorem provider_failure_reaches_the_gesture_handlers :
  DebugLayer._actual_draw (Example.debug_layer 12 8)
    (Example.host (Raise ProviderError) 600 400)
  = DebugLayer._actual_draw (Example.debug_layer 12 8) (Example.host (Ok 1%float) 600 400)
  /\ Drag.on_press (H := Sim.button) (Example.pointer 60 60)
       (Example.broken (Example.draggable 50 50))
     = (Raise ProviderError,
        {| state := Drag.set_start_root_y 60 (Drag.set_start_root_x 60 Drag.state0);
           tk := Example.provider_fails (Sim.widget 1 50 50 100 50); log := [] |})
  /\ Drag.on_release (H := Sim.button) Example.app (Example.pointer 160 160)
       (Example.broken (Example.dragged 150 150))
     = (Raise ProviderError, Example.broken (Example.dragged 150 150))
  /\ fst (Resize.on_press (H := Sim.button) (Example.pointer 150 100)
            (Example.broken (Example.resizable 100 50)))
     = Raise ProviderError
  /\ Resize.on_motion (H := Sim.button) Example.app (Example.pointer 250 100)
       (Example.broken (Example.resizable 100 50))
     = (Raise ProviderError, Example.broken (Example.resizable 100 50))
  /\ Resize.on_release (H := Sim.button) Example.app (Example.pointer 250 100)
       (Example.broken (Example.resizable 100 50))
     = (Raise ProviderError, Example.broken (Example.resizable 100 50)).
Proof. repeat split. Qed.

(** ** Off the grid after a click *)

(** C4, on the code: a button at [(50, 50)] is pressed at [(60, 60)], the
    pointer moves 2 pixels to [(62, 62)] and is released.  The move event
    places the widget at [(52, 52)]; the release finds ["moved"] unset,
    invokes the button and returns.  No gesture is in progress and the
    widget stands 2 pixels off the grid of 50. *)
Theorem click_after_jitter_leaves_the_widget_off_grid :
  let c := run (drag_dispatch (H := Sim.button) Example.app)
             [Press (Example.pointer 60 60); Motion (Example.pointer 62 62);
              Release (Example.pointer 62 62)]
             (Example.draggable 50 50) in
  log c = [Lift; Place (PyFloat 52) (PyFloat 52); UpdateIdletasks; Invoke]
  /\ Drag.moved (state c) = false
  /\ (Sim.px (tk c), Sim.py (tk c)) = (52, 52)
  /\ 52 mod App.gtp Example.app = 2.
Proof. repeat split. Qed.

(** X2: what a commit writes is on the grid.  The release of a drag with
    ["moved"] set and the release of a resize pass integer multiples of
    [gtp] to the widget. *)
Theorem commits_are_on_the_grid {T : Type} `{Toolkit T} (self : App.t) (e : Event) :
  (forall c c' : Ctx Drag.State T,
      Drag.moved (state c) = true ->
      Drag.on_release self e c = (Ok tt, c') ->
      exists px py : num,
        log c' = log c ++ [Place px py]
        /\ Spec.on_grid (App.gtp self) px /\ Spec.on_grid (App.gtp self) py)
  /\ (forall c c' : Ctx Resize.State T,
      Resize.on_release self e c = (Ok tt, c') ->
      exists pw ph : num,
        log c' = log c ++ [Configure pw ph]
        /\ Spec.on_grid (App.gtp self) pw /\ Spec.on_grid (App.gtp self) ph).
Proof.
  split.
  - intros c c' Hm Hr. rewrite (drag_on_release_commit self e c Hm) in Hr.
    destruct (Spec.snap_target self (tk c)) as [[gx gy]|]; [|discriminate].
    injection Hr as <-. eexists _, _. split; [reflexivity|].
    split; eexists; reflexivity.
  - intros c c' Hr. rewrite resize_on_release_eq in Hr.
    destruct (Spec.size_target self (tk c)) as [[gw gh]|]; [|discriminate].
    injection Hr as <-. eexists _, _. split; [reflexivity|].
    split; eexists; reflexivity.
Qed.

(** X2, witness: the drag release of [snap_law], and the release of a
    resize on a widget measuring 20 by 20. *)
Lemma commits_are_on_the_grid_witness :
  (exists px py : num,
      [Place (PyInt 150) (PyInt 150)] = [] ++ [Place px py]
      /\ Spec.on_grid 50 px /\ Spec.on_grid 50 py)
  /\ (exists pw ph : num,
      [Configure (PyInt 50) (PyInt 50)] = [] ++ [Configure pw ph]
      /\ Spec.on_grid 50 pw /\ Spec.on_grid 50 ph).
Proof.
  split.
  - exact (proj1 (commits_are_on_the_grid (H := Sim.button) Example.app
                    (Example.pointer 137 158))
             (Example.dragged 127 148) _ eq_refl eq_refl).
  - exact (proj2 (commits_are_on_the_grid (H := Sim.button) Example.app
                    (Example.pointer 20 20))
             (Example.resizable 20 20) _ eq_refl).
Defined.

(** ** The overlay's grid lines *)

Lemma comprehension_length {A B} (f : A -> result B) (l : list A) (bs : list B) :
  comprehension f l = Ok bs -> List.length bs = List.length l.
Proof.
  revert bs. induction l as [|a l IH]; intros bs; cbn [comprehension].
  - now intros [= <-].
  - destruct (f a) as [b|]; cbn [rbind]; [|discriminate].
    destruct (comprehension f l) as [bs'|]; cbn [rbind]; [|discriminate].
    intros [= <-]. cbn [List.length]. now rewrite (IH bs' eq_refl).
Qed.

Lemma comprehension_Forall {A B} (f : A -> result B) (P : B -> Prop)
  (l : list A) (bs : list B) :
  (forall a b, f a = Ok b -> P b) ->
  comprehension f l = Ok bs -> Forall P bs.
Proof.
  intros Hf. revert bs. induction l as [|a l IH]; intros bs; cbn [comprehension].
  - intros [= <-]. constructor.
  - destruct (f a) as [b|] eqn:Hb; cbn [rbind]; [|discriminate].
    destruct (comprehension f l) as [bs'|]; cbn [rbind]; [|discriminate].
    intros [= <-]. constructor; eauto.
Qed.

Lemma range_length (n : Z) : List.length (range n) = Z.to_nat n.
Proof. unfold range. now rewrite length_map, length_seq. Qed.

Lemma vertical_lines_count (self : DebugLayer.t) (gtp : float) (w h : Z)
  (vs : list DebugLayer.item) :
  DebugLayer.vertical_lines self gtp w h = Ok vs ->
  exists n cols : Z,
    DebugLayer.num_lines w gtp = Ok n
    /\ index (DebugLayer.size_grid self) 0 = Ok cols
    /\ List.length vs = Z.to_nat (Z.max n (cols + 1))
    /\ Forall (Spec.vertical h (DebugLayer.lncolor self)) vs.
Proof.
  unfold DebugLayer.vertical_lines.
  destruct (DebugLayer.num_lines w gtp) as [n|]; cbn [rbind]; [|discriminate].
  destruct (index (DebugLayer.size_grid self) 0) as [cols|]; cbn [rbind]; [|discriminate].
  intros Hc. exists n, cols. repeat split.
  - now rewrite (comprehension_length _ _ _ Hc), range_length.
  - refine (comprehension_Forall _ _ _ _ _ Hc). intros x it.
    destruct (Py.mul (PyInt x) (PyFloat gtp)) as [px|]; cbn [rbind]; [|discriminate].
    intros [= <-]. now exists px.
Qed.

Lemma horizontal_lines_count (self : DebugLayer.t) (gtp : float) (w h : Z)
  (hs : list DebugLayer.item) :
  DebugLayer.horizontal_lines self gtp w h = Ok hs ->
  exists n rows : Z,
    DebugLayer.num_lines h gtp = Ok n
    /\ index (DebugLayer.size_grid self) 1 = Ok rows
    /\ List.length hs = Z.to_nat (Z.max n (rows + 1))
    /\ Forall (Spec.horizontal w (DebugLayer.lncolor self)) hs.
Proof.
  unfold DebugLayer.horizontal_lines.
  destruct (DebugLayer.num_lines h gtp) as [n|]; cbn [rbind]; [|discriminate].
  destruct (index (DebugLayer.size_grid self) 1) as [rows|]; cbn [rbind]; [|discriminate].
  intros Hc. exists n, rows. repeat split.
  - now rewrite (comprehension_length _ _ _ Hc), range_length.
  - refine (comprehension_Forall _ _ _ _ _ Hc). intros y it.
    destruct (Py.mul (PyInt y) (PyFloat gtp)) as [py|]; cbn [rbind]; [|discriminate].
    intros [= <-]. now exists py.
Qed.






(** ** The filter of a numeric input *)

Import Stdlib.Strings.Ascii.

Lemma uint_of_string_decimal (s : string) (d : Decimal.uint) :
  NilEmpty.uint_of_string s = Some d ->
  Number.all_chars Number.isdecimal_char s = true.
Proof.
  revert d. induction s as [|a s IH]; intros d;
    cbn [NilEmpty.uint_of_string Number.all_chars].
  - reflexivity.
  - destruct (NilEmpty.uint_of_string s) as [d'|]; [|discriminate].
    intros Hc. rewrite (IH d' eq_refl), andb_true_r.
    apply uint_of_char_spec in Hc.
    repeat (destruct Hc as [[-> _]|Hc]; [reflexivity|]).
    destruct Hc as [-> _]. reflexivity.
Qed.

Lemma decimal_uint_of_string (s : string) :
  Number.all_chars Number.isdecimal_char s = true ->
  exists d, NilEmpty.uint_of_string s = Some d.
Proof.
  induction s as [|a s IH]; cbn [NilEmpty.uint_of_string Number.all_chars].
  - now exists Decimal.Nil.
  - intros [Ha Hs]%andb_prop. destruct (IH Hs) as [d ->].
    destruct a as [[] [] [] [] [] [] [] []]; try discriminate Ha; eexists; reflexivity.
Qed.

Lemma decimal_is_digit (s : string) :
  Number.all_chars Number.isdecimal_char s = true ->
  Number.all_chars Number.isdigit_char s = true.
Proof.
  induction s as [|a s IH]; cbn [Number.all_chars]; [reflexivity|].
  intros [Ha Hs]%andb_prop. rewrite (IH Hs), andb_true_r.
  unfold Number.isdigit_char. now rewrite Ha.
Qed.

(** The accumulator of the library's conversion is the value read from the
    left. *)
Lemma of_uint_acc_value (d : Decimal.uint) (acc : positive) :
  Z.pos (Pos.of_uint_acc d acc) =
  Number.digits_value (Z.pos acc) (NilEmpty.string_of_uint d).
Proof.
  revert acc. induction d; intros acc;
    cbn [Pos.of_uint_acc NilEmpty.string_of_uint Number.digits_value];
    try reflexivity; rewrite IHd; f_equal;
    match goal with
    | |- context [Number.digit_value ?a] =>
        let v := eval vm_compute in (Number.digit_value a) in
        change (Number.digit_value a) with v
    end; lia.
Qed.

Lemma of_uint_value (d : Decimal.uint) :
  Z.of_uint d = Number.digits_value 0 (NilEmpty.string_of_uint d).
Proof.
  unfold Z.of_uint.
  induction d; cbn [Pos.of_uint NilEmpty.string_of_uint Number.digits_value];
    try reflexivity; try exact IHd;
    cbn [Z.of_N]; rewrite of_uint_acc_value; reflexivity.
Qed.

Lemma uint_of_string_value (s : string) (d : Decimal.uint) :
  NilEmpty.uint_of_string s = Some d -> Z.of_uint d = Number.digits_value 0 s.
Proof. intros Hd. rewrite of_uint_value. now rewrite (NilEmpty.sus _ _ Hd). Qed.

Lemma int_of_string_value (val : string) (d : Decimal.signed_int) :
  NilZero.int_of_string val = Some d -> Z.of_int d = Number.decimal_value val.
Proof.
  unfold Number.decimal_value. destruct val as [|a rest]; [discriminate|].
  cbn [NilZero.int_of_string]. destruct (Ascii.eqb a "-"%char).
  - destruct rest as [|b rest]; [discriminate|]. cbn [NilZero.uint_of_string].
    destruct (NilEmpty.uint_of_string (String b rest)) as [u|] eqn:Hu; [|discriminate].
    intros [= <-]. cbn [Z.of_int]. now rewrite (uint_of_string_value _ _ Hu).
  - cbn [NilZero.uint_of_string].
    destruct (NilEmpty.uint_of_string (String a rest)) as [u|] eqn:Hu; [|discriminate].
    intros [= <-]. cbn [Z.of_int]. now rewrite (uint_of_string_value _ _ Hu).
Qed.

(** [int(val)] on a text that passed the [isdigit] test. *)
Lemma int_of_text_spec (lim : nat) (val : string) :
  Number.isdigit (Number.strip_minus val) = true ->
  Number.int_of_text lim val =
  if Number.all_chars Number.isdecimal_char (Number.strip_minus val)
     && negb (Number.too_many_digits lim (Number.strip_minus val))
  then Ok (Number.decimal_value val) else Raise ValueError.
Proof.
  unfold Number.int_of_text.
  destruct (NilZero.int_of_string val) as [d|] eqn:Hi.
  - rewrite <- (int_of_string_value _ _ Hi). intros _.
    assert (Hdec : Number.all_chars Number.isdecimal_char (Number.strip_minus val) = true).
    { destruct val as [|a rest]; [discriminate|].
      cbn [NilZero.int_of_string Number.strip_minus] in Hi |- *.
      destruct (Ascii.eqb a "-"%char).
      - destruct rest as [|b rest]; [discriminate|]. cbn [NilZero.uint_of_string] in Hi.
        destruct (NilEmpty.uint_of_string (String b rest)) as [u|] eqn:Hu; [|discriminate].
        exact (uint_of_string_decimal _ _ Hu).
      - cbn [NilZero.uint_of_string] in Hi.
        destruct (NilEmpty.uint_of_string (String a rest)) as [u|] eqn:Hu; [|discriminate].
        exact (uint_of_string_decimal _ _ Hu). }
    rewrite Hdec. cbn [andb].
    destruct (Number.too_many_digits lim (Number.strip_minus val)); reflexivity.
  - intros Hd.
    assert (Hdec : Number.all_chars Number.isdecimal_char (Number.strip_minus val) = false).
    { destruct (Number.all_chars _ _) eqn:Hdec; [exfalso|reflexivity].
      destruct (decimal_uint_of_string _ Hdec) as [u Hu].
      destruct val as [|a rest]; [discriminate|].
      cbn [NilZero.int_of_string Number.strip_minus] in Hi, Hu, Hd.
      destruct (Ascii.eqb a "-"%char).
      - destruct rest as [|b rest]; [discriminate|]. cbn [NilZero.uint_of_string] in Hi.
        rewrite Hu in Hi. discriminate.
      - cbn [NilZero.uint_of_string] in Hi. rewrite Hu in Hi. discriminate. }
    now rewrite Hdec.
Qed.

(** [filter_numbers], case by case. *)
Lemma filter_numbers_eq (lim : nat) (min max : Z) (val : string) :
  Number.filter_numbers lim min max val =
  if negb (Number.isdigit (Number.strip_minus val)) then Ok None
  else if Number.all_chars Number.isdecimal_char (Number.strip_minus val)
          && negb (Number.too_many_digits lim (Number.strip_minus val))
  then (if (Number.decimal_value val <? min) || (Number.decimal_value val >? max)
        then Ok None else Ok (Some (Number.decimal_value val)))
  else Raise ValueError.
Proof.
  unfold Number.filter_numbers.
  destruct (String.eqb val EmptyString) eqn:He.
  - apply String.eqb_eq in He. subst val. reflexivity.
  - destruct (Number.isdigit (Number.strip_minus val)) eqn:Hd; cbn [negb]; [|reflexivity].
    rewrite (int_of_text_spec lim val Hd).
    destruct (_ && _); reflexivity.
Qed.

(** X3: the filter of [App.number] hands a number [n] to [onchange] exactly
    when the text of the entry is an optional ['-'] followed by at least one
    character, all of them decimal digits ['0'] to ['9'], within the
    interpreter's limit on the digits of an [int]; [n] is then the number the
    text denotes in base ten, leading zeros allowed, and [min <= n <= max]. *)
Theorem filter_numbers_delivers (lim : nat) (min max : Z) (val : string) (n : Z) :
  Number.filter_numbers lim min max val = Ok (Some n) <->
  Number.isdigit (Number.strip_minus val) = true
  /\ Number.all_chars Number.isdecimal_char (Number.strip_minus val) = true
  /\ Number.too_many_digits lim (Number.strip_minus val) = false
  /\ n = Number.decimal_value val
  /\ min <= n <= max.
Proof.
  rewrite filter_numbers_eq.
  destruct (Number.isdigit _); cbn [negb].
  2:{ split; [discriminate|]. intros [? _]; discriminate. }
  destruct (Number.all_chars _ _); cbn [andb].
  2:{ split; [discriminate|]. intros (_ & ? & _); discriminate. }
  destruct (Number.too_many_digits _ _); cbn [negb].
  { split; [discriminate|]. intros (_ & _ & ? & _); discriminate. }
  destruct (Z.ltb_spec (Number.decimal_value val) min); cbn [orb].
  { split; [discriminate|]. intros (_ & _ & _ & -> & ?); lia. }
  destruct (Z.gtb_spec (Number.decimal_value val) max).
  { split; [discriminate|]. intros (_ & _ & _ & -> & ?); lia. }
  split.
  - intros [= <-]. repeat split; lia.
  - intros (_ & _ & _ & -> & _). reflexivity.
Qed.

(** X3, witness: the text ["-007"%string] with bounds [-10] and [100]. *)
Lemma filter_numbers_delivers_witness :
  Number.filter_numbers 4300 (-10) 100 "-007"%string = Ok (Some (-7)).
Proof.
  apply (proj2 (filter_numbers_delivers 4300 (-10) 100 "-007"%string (-7))).
  repeat split; try reflexivity; lia.
Defined.

(** X4: among the texts of the model, those whose characters all have code
    points 0 to 255, the filter raises exactly on a text that passes
    [isdigit] after the optional ['-'] and that [int] cannot read: one with
    a superscript digit (U+00B2, U+00B3, U+00B9), or one longer than the
    interpreter's limit on the digits of an [int].  The exception is
    [ValueError]; every other text of that range is accepted or dropped in
    silence.  Texts with characters beyond U+00FF are outside the model and
    nothing is stated of them. *)
Theorem filter_numbers_raises (lim : nat) (min max : Z) (val : string) (e : exn) :
  Number.filter_numbers lim min max val = Raise e <->
  e = ValueError
  /\ Number.isdigit (Number.strip_minus val) = true
  /\ (Number.all_chars Number.isdecimal_char (Number.strip_minus val) = false
      \/ Number.too_many_digits lim (Number.strip_minus val) = true).
Proof.
  rewrite filter_numbers_eq.
  destruct (Number.isdigit _); cbn [negb].
  2:{ split; [discriminate|]. intros (_ & ? & _); discriminate. }
  destruct (Number.all_chars _ _); cbn [andb].
  2:{ split; [intros [= <-]; auto|]. intros (-> & _); reflexivity. }
  destruct (Number.too_many_digits _ _); cbn [negb].
  { split; [intros [= <-]; auto|]. intros (-> & _); reflexivity. }
  split.
  - destruct (_ || _); discriminate.
  - intros (_ & _ & [?|?]); discriminate.
Qed.

(** X4, witness: the text made of a ['1'] and a superscript two. *)
Lemma filter_numbers_raises_witness :
  Number.filter_numbers 4300 0 100
    (String "1"%char (String (Ascii.ascii_of_N 178) EmptyString)) = Raise ValueError.
Proof.
  apply (proj2 (filter_numbers_raises 4300 0 100
                  (String "1"%char (String (Ascii.ascii_of_N 178) EmptyString)) ValueError)).
  repeat split. left. reflexivity.
Defined.

Lemma str_digits (n : Z) :
  exists d, d <> Decimal.Nil
    /\ Number.strip_minus (Py.str n) = NilEmpty.string_of_uint d
    /\ (String.length (NilEmpty.string_of_uint d) <= String.length (Py.str n))%nat.
Proof.
  unfold Py.str. destruct n as [|p|p]; cbn [Z.to_int NilZero.string_of_int].
  - exists (Decimal.D0 Decimal.Nil). repeat split; [discriminate|apply Nat.le_refl].
  - exists (Pos.to_uint p). pose proof (DecimalPos.Unsigned.to_uint_nonnil p) as Hn.
    unfold NilZero.string_of_uint.
    destruct (Pos.to_uint p) eqn:Hp; try congruence; repeat split; try discriminate;
      apply Nat.le_refl.
  - exists (Pos.to_uint p). pose proof (DecimalPos.Unsigned.to_uint_nonnil p) as Hn.
    unfold NilZero.string_of_uint. cbn [Number.strip_minus Ascii.eqb Bool.eqb].
    destruct (Pos.to_uint p) eqn:Hp; try congruence; repeat split; try discriminate;
      cbn [String.length]; lia.
Qed.

Lemma str_value (n : Z) : Number.decimal_value (Py.str n) = n.
Proof.
  rewrite <- (DecimalZ.of_to n) at 2. symmetry. apply int_of_string_value.
  unfold Py.str. apply NilZero.isi.
  - destruct n as [|p|p]; cbn [Z.to_int]; try discriminate.
    intros [= Hp]. now apply (DecimalPos.Unsigned.to_uint_nonnil p).
  - destruct n as [|p|p]; cbn [Z.to_int]; try discriminate.
    intros [= Hp]. now apply (DecimalPos.Unsigned.to_uint_nonnil p).
Qed.

(** X5: what [str] writes, the filter reads back: for every integer [n]
    within the bounds whose text [str(n)] has at most 640 characters, the
    filter hands [n] itself to [onchange], negative numbers included. *)
Theorem filter_numbers_accepts_str (lim : nat) (min max n : Z) :
  min <= n <= max ->
  (String.length (Py.str n) <= 640)%nat ->
  Number.filter_numbers lim min max (Py.str n) = Ok (Some n).
Proof.
  intros Hr Hl. rewrite filter_numbers_eq, str_value.
  destruct (str_digits n) as (d & Hn & Hs & Hlen). rewrite Hs.
  pose proof (uint_of_string_decimal _ _ (NilEmpty.usu d)) as Hdec.
  pose proof (decimal_is_digit _ Hdec) as Hdig.
  assert (Hd : Number.isdigit (NilEmpty.string_of_uint d) = true)
    by (destruct d; try congruence; exact Hdig).
  rewrite Hd, Hdec. cbn [negb andb].
  unfold Number.too_many_digits.
  destruct (Nat.ltb_spec 640 (String.length (NilEmpty.string_of_uint d))); [lia|].
  cbn [andb negb].
  destruct (Z.ltb_spec n min); [lia|]. destruct (Z.gtb_spec n max); [lia|]. reflexivity.
Qed.

(** X5, witness: [-42] within [-100] and [100]. *)
Lemma filter_numbers_accepts_str_witness :
  Number.filter_numbers 4300 (-100) 100 "-42"%string = Ok (Some (-42)).
Proof.
  apply (filter_numbers_accepts_str 4300 (-100) 100 (-42)).
  - lia.
  - cbn. lia.
Defined.

(** ** The widgets a drag is bound to *)

Lemma widget_subtree_ind (P : Binding.widget -> Prop) :
  (forall name children, Forall P children -> P (Binding.Widget name children)) ->
  forall w, P w.
Proof.
  intros step. fix IH 1. intros [name children]. apply step.
  induction children as [|c cs IHcs]; constructor; [apply IH|exact IHcs].
Qed.

Lemma bind_recursive_preorder (w : Binding.widget) :
  Binding.bind_events w ++ Binding.bind_recursive w =
  flat_map Binding.bind_events (Binding.preorder w).
Proof.
  induction w as [name children IH] using widget_subtree_ind.
  cbn [Binding.bind_recursive Binding.preorder flat_map]. f_equal.
  induction IH as [|c cs Hc _ IHcs]; cbn [flat_map]; [reflexivity|].
  rewrite flat_map_app, <- Hc, IHcs. reflexivity.
Qed.

Lemma preorder_self (w : Binding.widget) : In w (Binding.preorder w).
Proof. destruct w. now left. Qed.

Lemma inside_trans (a b c : Binding.widget) :
  Binding.inside a b -> Binding.inside b c -> Binding.inside a c.
Proof.
  intros Hab Hbc. induction Hbc; [assumption|].
  eapply Binding.inside_child; eassumption.
Qed.

Lemma preorder_inside (root w : Binding.widget) :
  In w (Binding.preorder root) -> Binding.inside root w.
Proof.
  induction root as [name children IH] using widget_subtree_ind.
  cbn [Binding.preorder]. intros [<-|Hin]; [constructor|].
  apply in_flat_map in Hin as (c & Hc & Hw).
  rewrite Forall_forall in IH.
  apply inside_trans with c; [|now apply IH].
  eapply Binding.inside_child; [constructor|exact Hc].
Qed.

Lemma preorder_child (root w c : Binding.widget) :
  In w (Binding.preorder root) -> In c (Binding.winfo_children w) ->
  In c (Binding.preorder root).
Proof.
  induction root as [name children IH] using widget_subtree_ind.
  cbn [Binding.preorder]. intros [<-|Hin] Hc; right.
  - apply in_flat_map. exists c. split; [exact Hc|apply preorder_self].
  - apply in_flat_map in Hin as (c' & Hc' & Hw).
    rewrite Forall_forall in IH.
    apply in_flat_map. exists c'. split; [exact Hc'|]. now apply IH.
Qed.

Lemma inside_preorder (root w : Binding.widget) :
  Binding.inside root w -> In w (Binding.preorder root).
Proof.
  induction 1 as [|w c _ IH Hc]; [apply preorder_self|].
  eapply preorder_child; eassumption.
Qed.

Lemma preorder_length (w : Binding.widget) :
  List.length (Binding.preorder w) = Binding.size w.
Proof.
  induction w as [name children IH] using widget_subtree_ind.
  cbn [Binding.preorder Binding.size List.length]. f_equal.
  induction IH as [|c cs Hc _ IHcs]; cbn [flat_map map list_sum]; [reflexivity|].
  now rewrite length_app, Hc, IHcs.
Qed.

Lemma bind_events_length (l : list Binding.widget) :
  List.length (flat_map Binding.bind_events l) = (3 * List.length l)%nat.
Proof.
  induction l as [|w l IH]; cbn [flat_map List.length Binding.bind_events app]; lia.
Qed.

(** X6: [make_draggable] binds the whole subtree: the binding calls it makes
    are the three calls (press, motion, release) on each widget of the
    subtree of the given widget, parents before children, in the order of
    [winfo_children]; a widget gets the handlers if and only if it is the
    widget itself or one of its descendants, at any depth, and the number of
    calls is three times the number of widgets of the subtree. *)
Theorem make_draggable_binds_the_whole_subtree (root : Binding.widget) :
  Binding.make_draggable root = flat_map Binding.bind_events (Binding.preorder root)
  /\ (forall (w : Binding.widget) (event_name : string) (callback : Binding.handler),
        In (w, event_name, callback) (Binding.make_draggable root) <->
        Binding.inside root w
        /\ In (event_name, callback)
             [("<Button-1>"%string, Binding.on_press);
              ("<B1-Motion>"%string, Binding.on_motion);
              ("<ButtonRelease-1>"%string, Binding.on_release)])
  /\ List.length (Binding.make_draggable root) = (3 * Binding.size root)%nat.
Proof.
  assert (Heq : Binding.make_draggable root =
                flat_map Binding.bind_events (Binding.preorder root))
    by apply bind_recursive_preorder.
  split; [exact Heq|]. rewrite Heq. split.
  - intros w ev cb. rewrite in_flat_map. split.
    + intros (w' & Hw' & Hin). apply preorder_inside in Hw'.
      cbn [Binding.bind_events In] in Hin |- *.
      destruct Hin as [[= <- <- <-]|[[= <- <- <-]|[[= <- <- <-]|[]]]]; auto.
    + intros [Hw Hin]. exists w. split; [now apply inside_preorder|].
      cbn [Binding.bind_events In] in Hin |- *.
      destruct Hin as [[= <- <-]|[[= <- <-]|[[= <- <-]|[]]]]; auto.
  - now rewrite bind_events_length, preorder_length.
Qed.

(** ** The factories on lists of any length *)

Lemma pixels_of_ints (gs : GridSystem.t) (l : list Z) :
  GridSystem.to_pixels gs (map PyInt l) =
  match l with
  | a :: b :: _ => Ok (a * GridSystem.gtp gs, b * GridSystem.gtp gs)
  | _ => Raise IndexError
  end
  /\ GridSystem.dim_to_pixels gs (map PyInt l) =
     match l with
     | a :: b :: _ => Ok (a * GridSystem.gtp gs, b * GridSystem.gtp gs)
     | _ => Raise IndexError
     end.
Proof. destruct l as [|a [|b l]]; split; reflexivity. Qed.

Lemma btn_eq (self : App.t) (pos size : list num) :
  App.btn self pos size =
  (let? ps := comprehension Py.int pos in
   let? ss := comprehension Py.int size in
   match ps, ss with
   | x :: y :: _, w :: h :: _ =>
       let gtp := GridSystem.gtp (App.grid_system self) in
       Ok {| App.x := x * gtp; App.y := y * gtp; App.w := w * gtp; App.h := h * gtp |}
   | _, _ => Raise IndexError
   end).
Proof.
  unfold App.btn.
  destruct (comprehension Py.int pos) as [ps|]; cbn [rbind]; [|reflexivity].
  destruct (comprehension Py.int size) as [ss|]; cbn [rbind]; [|reflexivity].
  rewrite (proj1 (pixels_of_ints _ ps)), (proj2 (pixels_of_ints _ ss)).
  destruct ps as [|x [|y ps]]; cbn [rbind]; try reflexivity;
    destruct ss as [|w [|h ss]]; reflexivity.
Qed.

Lemma comprehension_raises {A B} (f : A -> result B) (l : list A) (a : A) (e : exn) :
  In a l -> f a = Raise e -> exists e', comprehension f l = Raise e'.
Proof.
  intros Hin Ha. induction l as [|b l IH]; [destruct Hin|].
  cbn [comprehension]. destruct Hin as [->|Hin].
  - rewrite Ha. now exists e.
  - destruct (f b); cbn [rbind]; [|eauto].
    destruct (IH Hin) as [e' ->]. now exists e'.
Qed.

(** X7: a factory converts every component of [pos] and [size] with [int()]
    and reads the first two of each.  [label] computes what [btn] computes;
    a call that returns was given at least two components in each list, all
    of which convert; one component that does not convert (a NaN, an
    infinity), wherever it stands, makes the call raise; and components past
    the second, when they convert, change nothing. *)
Theorem factories_convert_every_component (self : App.t) (pos size : list num) :
  App.label self pos size = App.btn self pos size
  /\ (forall g : App.Geometry,
        App.btn self pos size = Ok g ->
        (2 <= List.length pos)%nat /\ (2 <= List.length size)%nat
        /\ (forall a, In a (pos ++ size) -> exists z, Py.int a = Ok z))
  /\ (forall (a : num) (e : exn),
        In a (pos ++ size) -> Py.int a = Raise e ->
        exists e', App.btn self pos size = Raise e')
  /\ (forall (x y w h : num) (more_pos more_size : list num) (g : App.Geometry),
        pos = x :: y :: more_pos -> size = w :: h :: more_size ->
        App.btn self pos size = Ok g ->
        App.btn self [x; y] [w; h] = Ok g).
Proof.
  split; [reflexivity|]. split; [|split].
  - intros g. rewrite btn_eq.
    destruct (comprehension Py.int pos) as [ps|] eqn:Hp; cbn [rbind]; [|discriminate].
    destruct (comprehension Py.int size) as [ss|] eqn:Hs; cbn [rbind]; [|discriminate].
    intros Hg.
    rewrite <- (comprehension_length _ _ _ Hp), <- (comprehension_length _ _ _ Hs).
    split; [|split].
    + destruct ps as [|x [|y ps]]; try discriminate. cbn [List.length]. lia.
    + destruct ps as [|x [|y ps]]; try discriminate.
      destruct ss as [|w [|h ss]]; try discriminate. cbn [List.length]. lia.
    + intros a [Ha|Ha]%in_app_or; destruct (Py.int a) as [z|e] eqn:Ea; eauto.
      * destruct (comprehension_raises _ _ _ _ Ha Ea) as [e' He']. congruence.
      * destruct (comprehension_raises _ _ _ _ Ha Ea) as [e' He']. congruence.
  - intros a e Hin Ha. rewrite btn_eq. apply in_app_or in Hin as [Hin|Hin].
    + destruct (comprehension_raises _ _ _ _ Hin Ha) as [e' ->]. now exists e'.
    + destruct (comprehension Py.int pos); cbn [rbind]; [|eauto].
      destruct (comprehension_raises _ _ _ _ Hin Ha) as [e' ->]. now exists e'.
  - intros x y w h mp ms g -> ->. rewrite !btn_eq. cbn [comprehension].
    destruct (Py.int x); cbn [rbind]; [|discriminate].
    destruct (Py.int y); cbn [rbind]; [|discriminate].
    destruct (comprehension Py.int mp); cbn [rbind]; [|discriminate].
    destruct (Py.int w); cbn [rbind]; [|discriminate].
    destruct (Py.int h); cbn [rbind]; [|discriminate].
    destruct (comprehension Py.int ms); cbn [rbind]; [|discriminate].
    trivial.
Qed.

(** X7, witness: [btn([1, 2, nan], [2, 1])] raises, for the unused third
    component of the position. *)
Lemma factories_convert_every_component_witness :
  exists e : exn,
    App.btn Example.app [PyInt 1; PyInt 2; PyFloat nan] [PyInt 2; PyInt 1] = Raise e.
Proof.
  refine (proj1 (proj2 (proj2
            (factories_convert_every_component Example.app
               [PyInt 1; PyInt 2; PyFloat nan] [PyInt 2; PyInt 1])))
            (PyFloat nan) ValueError _ eq_refl).
  cbn. auto.
Defined.

(** ** The overlay's labels and the positions of its lines *)

Lemma comprehension_Forall2 {A B} (f : A -> result B) (l : list A) (bs : list B) :
  comprehension f l = Ok bs -> Forall2 (fun a b => f a = Ok b) l bs.
Proof.
  revert bs. induction l as [|a l IH]; intros bs; cbn [comprehension].
  - intros [= <-]. constructor.
  - destruct (f a) as [b|] eqn:Hb; cbn [rbind]; [|discriminate].
    destruct (comprehension f l) as [bs'|]; cbn [rbind]; [|discriminate].
    intros [= <-]. constructor; auto.
Qed.

Lemma comprehension_flat_map {A B C} (f : A -> result B) (h : B -> list C)
  (g : A -> list C) (l : list A) (bs : list B) :
  (forall a b, f a = Ok b -> h b = g a) ->
  comprehension f l = Ok bs -> flat_map h bs = flat_map g l.
Proof.
  intros Hf Hc. apply comprehension_Forall2 in Hc.
  induction Hc as [|a b l bs Hab _ IH]; cbn [flat_map]; [reflexivity|].
  now rewrite (Hf a b Hab), IH.
Qed.

Lemma texts_lines (P : DebugLayer.item -> Prop) (l : list DebugLayer.item) :
  (forall it, P it -> exists x0 y0 x1 y1 fill, it = DebugLayer.Line x0 y0 x1 y1 fill) ->
  Forall P l -> Overlay.texts l = [].
Proof.
  intros HP Hl. induction Hl as [|it l Hit _ IH]; [reflexivity|].
  unfold Overlay.texts in *. cbn [flat_map]. rewrite IH.
  destruct (HP it Hit) as (x0 & y0 & x1 & y1 & fill & ->). reflexivity.
Qed.

Lemma texts_concat (ll : list (list DebugLayer.item)) :
  Overlay.texts (List.concat ll) = flat_map Overlay.texts ll.
Proof.
  induction ll as [|l ll IH]; [reflexivity|].
  cbn [List.concat flat_map]. unfold Overlay.texts at 1. rewrite flat_map_app.
  fold (Overlay.texts l). fold (Overlay.texts (List.concat ll)). now rewrite IH.
Qed.

Lemma flat_map_singleton {A B} (g : A -> B) (l : list A) :
  flat_map (fun a => [g a]) l = map g l.
Proof. induction l as [|a l IH]; cbn [flat_map map app]; congruence. Qed.

Lemma coordinate_labels_texts (self : DebugLayer.t) (gtp scaling : float)
  (rows : Z) (ls : list DebugLayer.item) :
  index (DebugLayer.size_grid self) 1 = Ok rows ->
  DebugLayer.coordinate_labels self gtp scaling = Ok ls ->
  exists cols,
    (DebugLayer.show_coords self = true -> index (DebugLayer.size_grid self) 0 = Ok cols)
    /\ Overlay.texts ls =
       if DebugLayer.show_coords self then Overlay.cell_names cols rows else [].
Proof.
  intros Hrows. unfold DebugLayer.coordinate_labels.
  destruct (DebugLayer.show_coords self).
  2:{ intros [= <-]. exists 0. split; [discriminate|reflexivity]. }
  destruct (Py.mul (PyInt 8) (PyFloat scaling)) as [f8|]; cbn [rbind]; [|discriminate].
  destruct (Py.int f8) as [font_size|]; cbn [rbind]; [|discriminate].
  destruct (index (DebugLayer.size_grid self) 0) as [cols|]; cbn [rbind]; [|discriminate].
  rewrite Hrows. cbn [rbind].
  destruct (comprehension _ (range cols)) as [columns|] eqn:Hc; cbn [rbind]; [|discriminate].
  intros [= <-]. exists cols. split; [reflexivity|].
  rewrite texts_concat. unfold Overlay.cell_names.
  refine (comprehension_flat_map _ _ _ _ _ _ Hc).
  intros x col Hcol. rewrite <- flat_map_singleton.
  refine (comprehension_flat_map _ _ _ _ _ _ Hcol).
  intros y it. unfold DebugLayer.coordinate_label.
  repeat (match goal with
          | |- context [rbind ?r _] =>
              lazymatch r with
              | rbind _ _ => fail
              | _ => destruct r; cbn [rbind]; [|discriminate]
              end
          end).
  intros [= <-]. reflexivity.
Qed.

(** X8: the labels name the cells.  On a draw that completes with
    [show_coords] set, the texts on the canvas are, in drawing order, the
    names ["x,y"] of the cells of the grid, 0-based, column by column: one
    label per cell, [cols * rows] in all, and none for a grid with no
    column or no row.  With [show_coords] unset the canvas holds no text. *)
Theorem overlay_labels_name_the_cells (self : DebugLayer.t) (host : DebugLayer.Host)
  (canvas : DebugLayer.Canvas) :
  DebugLayer._actual_draw self host = Ok canvas ->
  exists cols rows : Z,
    index (DebugLayer.size_grid self) 0 = Ok cols
    /\ index (DebugLayer.size_grid self) 1 = Ok rows
    /\ Overlay.texts (DebugLayer.items canvas) =
       (if DebugLayer.show_coords self then Overlay.cell_names cols rows else [])
    /\ List.length (Overlay.texts (DebugLayer.items canvas)) =
       (if DebugLayer.show_coords self then Z.to_nat cols * Z.to_nat rows else 0)%nat.
Proof.
  unfold DebugLayer._actual_draw.
  destruct (GridSystem.get_window_size _ _) as [size|]; cbn [rbind]; [|discriminate].
  destruct (DebugLayer.spacing self _) as [gtp|]; cbn [rbind]; [|discriminate].
  destruct (DebugLayer.vertical_lines self gtp _ _) as [vs|] eqn:Hv; cbn [rbind]; [|discriminate].
  destruct (DebugLayer.horizontal_lines self gtp _ _) as [hs|] eqn:Hh; cbn [rbind]; [|discriminate].
  destruct (DebugLayer.coordinate_labels self gtp _) as [ls|] eqn:Hl; cbn [rbind]; [|discriminate].
  intros [= <-]. cbn [DebugLayer.items].
  apply vertical_lines_count in Hv as (n_cols & cols & _ & Ic & _ & Fv).
  apply horizontal_lines_count in Hh as (n_rows & rows & _ & Ir & _ & Fh).
  destruct (coordinate_labels_texts _ _ _ _ _ Ir Hl) as (cols' & Ic' & Ht).
  assert (Htexts : Overlay.texts (vs ++ hs ++ ls) =
                   if DebugLayer.show_coords self then Overlay.cell_names cols rows else []).
  { unfold Overlay.texts. rewrite !flat_map_app.
    fold (Overlay.texts vs). fold (Overlay.texts hs). fold (Overlay.texts ls).
    rewrite (texts_lines _ vs) with (2 := Fv).
    2:{ intros it [px ->]. eauto 6. }
    rewrite (texts_lines _ hs) with (2 := Fh).
    2:{ intros it [py ->]. eauto 6. }
    cbn [app]. rewrite Ht.
    destruct (DebugLayer.show_coords self); [|reflexivity].
    specialize (Ic' eq_refl). congruence. }
  exists cols, rows. repeat split; try assumption.
  rewrite Htexts. destruct (DebugLayer.show_coords self); [|reflexivity].
  unfold Overlay.cell_names.
  generalize (range_length cols). generalize (range cols) as l. intros l <-.
  induction l as [|x l IH]; [reflexivity|].
  cbn [flat_map List.length]. rewrite length_app, length_map, range_length, IH. lia.
Qed.

(** X8, witness: a grid of 2 by 3 with [gtp = 50] on a canvas of 100 by 150
    at scaling 1.0: the six labels, column by column. *)
Lemma overlay_labels_name_the_cells_witness :
  exists canvas : DebugLayer.Canvas,
    DebugLayer._actual_draw (Overlay.layer 50 2 3 true)
      (Example.host (Ok 1%float) 100 150) = Ok canvas
    /\ Overlay.texts (DebugLayer.items canvas) =
       ["0,0"; "0,1"; "0,2"; "1,0"; "1,1"; "1,2"]%string.
Proof.
  destruct (DebugLayer._actual_draw (Overlay.layer 50 2 3 true)
              (Example.host (Ok 1%float) 100 150)) as [canvas|] eqn:Hd;
    [|vm_compute in Hd; discriminate].
  destruct (overlay_labels_name_the_cells _ _ canvas Hd)
    as (cols & rows & Hc & Hr & Ht & _).
  exists canvas. split; [reflexivity|].
  cbn in Hc, Hr. injection Hc as <-. injection Hr as <-. exact Ht.
Defined.




(** ** The overlay of an App with [gtp = 0] *)











(** A draw can fail with lines on the canvas: at an infinite scaling the 13
    and 9 lines of the 12 by 8 grid are created, and the font size of the
    labels, [int(8 * scaling)], then raises. *)
Example overlay_fails_after_the_lines :
  (let r := Drawing._actual_draw (Overlay.layer 50 12 8 true)
              (Example.host (Ok infinity) 600 400) [] in
   (fst r, List.length (snd r))) = (Raise OverflowError, 22%nat).
Proof. reflexivity. Qed.



(** ** What a gesture calls, and what it carries over *)

Lemma truediv_ok_nonzero (a : num) (s q : float) :
  Py.truediv a s = Ok q -> PrimFloat.is_zero s = false.
Proof.
  unfold Py.truediv. destruct (Py.to_float a); cbn [rbind]; [|discriminate].
  destruct (PrimFloat.is_zero s); [discriminate|reflexivity].
Qed.

Section TraceFacts.

Context {S T : Type} `{Toolkit T}.
Variable p : call -> bool.

Lemma adds_only_quiet {A} (m : M S T A) :
  (forall c, log (snd (m c)) = log c) -> Trace.adds_only p m.
Proof. intros Hm c. exists []. now rewrite Hm, app_nil_r. Qed.

Lemma adds_only_bind {A B} (m : M S T A) (k : A -> M S T B) :
  Trace.adds_only p m -> (forall a, Trace.adds_only p (k a)) ->
  Trace.adds_only p (bind m k).
Proof.
  intros Hm Hk c. unfold bind. destruct (Hm c) as (l1 & E1 & P1).
  destruct (m c) as [[a|e] c']; cbn [snd] in *.
  - destruct (Hk a c') as (l2 & E2 & P2). exists (l1 ++ l2).
    now rewrite E2, E1, app_assoc, forallb_app, P1, P2.
  - now exists l1.
Qed.

Lemma adds_only_command (what : call) (f : T -> T) :
  p what = true -> Trace.adds_only (S := S) p (command what f).
Proof. intros Hp c. exists [what]. cbn. now rewrite Hp. Qed.

End TraceFacts.

Ltac adds_only :=
  repeat first
    [ apply adds_only_bind; [|intros ?]
    | apply adds_only_command; reflexivity
    | apply adds_only_quiet; intros ?; reflexivity ].

Section GestureTraces.

Context {T : Type} `{Toolkit T}.
Variable self : App.t.

Lemma drag_dispatch_adds_only (i : input T) :
  Trace.adds_only Trace.drag_call (drag_dispatch self i).
Proof.
  destruct i as [e|e|e|f]; cbn [drag_dispatch].
  - unfold Drag.on_press. adds_only.
  - unfold Drag.on_motion. adds_only.
    destruct (Drag.beyond_threshold _ _); adds_only.
  - unfold Drag.on_release. adds_only.
    destruct (negb _); [destruct invoke|]; adds_only.
  - adds_only.
Qed.

Lemma resize_dispatch_adds_only (i : input T) :
  Trace.adds_only Trace.resize_call (resize_dispatch self i).
Proof.
  destruct i as [e|e|e|f]; cbn [resize_dispatch].
  - unfold Resize.on_press. adds_only.
  - unfold Resize.on_motion. adds_only.
  - unfold Resize.on_release. adds_only.
  - adds_only.
Qed.

Lemma run_adds_only {S} (p : call -> bool) (dispatch : input T -> M S T unit)
  (inputs : list (input T)) (c : Ctx S T) :
  (forall i, Trace.adds_only p (dispatch i)) ->
  exists added, log (run dispatch inputs c) = log c ++ added /\ forallb p added = true.
Proof.
  intros Hd. revert c. induction inputs as [|i inputs IH]; intros c; cbn [run fold_left].
  - exists []. now rewrite app_nil_r.
  - destruct (Hd i c) as (l1 & E1 & P1).
    destruct (IH (snd (dispatch i c))) as (l2 & E2 & P2).
    exists (l1 ++ l2). unfold run in E2.
    now rewrite E2, E1, app_assoc, forallb_app, P1, P2.
Qed.

Lemma drag_on_press_afresh (e : Event) (c1 c2 : Ctx Drag.State T) :
  tk c1 = tk c2 -> log c1 = log c2 ->
  fst (Drag.on_press e c1) = Ok tt ->
  Drag.on_press e c2 = Drag.on_press e c1.
Proof.
  destruct c1 as [s1 t1 l1], c2 as [s2 t2 l2]; cbn [tk log]; intros <- <-.
  unfold Drag.on_press. unfold_handler.
  destruct (get_window_scaling t1) as [v|]; cbn [fst]; [|discriminate].
  cbn [Drag.get_scaling Drag.scaling Drag.set_scaling
       Drag.set_start_root_x Drag.set_start_root_y].
  destruct (Py.truediv (PyInt (winfo_x t1)) v) as [sx|]; cbn [fst]; [|discriminate].
  destruct (Py.truediv (PyInt (winfo_y t1)) v) as [sy|]; cbn [fst]; [|discriminate].
  reflexivity.
Qed.

Lemma resize_on_press_afresh (e : Event) (c1 c2 : Ctx Resize.State T) :
  tk c1 = tk c2 -> log c1 = log c2 ->
  fst (Resize.on_press e c1) = Ok tt ->
  Resize.on_press e c2 = Resize.on_press e c1.
Proof.
  destruct c1 as [s1 t1 l1], c2 as [s2 t2 l2]; cbn [tk log]; intros <- <-.
  unfold Resize.on_press. unfold_handler.
  destruct (get_window_scaling t1) as [v|]; cbn [fst]; [|discriminate].
  destruct (Py.truediv (PyInt (winfo_width t1)) v) as [sx|]; cbn [fst]; [|discriminate].
  destruct (Py.truediv (PyInt (winfo_height t1)) v) as [sy|]; cbn [fst]; [|discriminate].
  reflexivity.
Qed.

Lemma drag_on_press_scaling_nonzero (e : Event) (c c' : Ctx Drag.State T) :
  Drag.on_press e c = (Ok tt, c') ->
  PrimFloat.is_zero (Drag.get_scaling (state c')) = false.
Proof.
  destruct c as [st t lg]. unfold Drag.on_press. unfold_handler.
  destruct (get_window_scaling t) as [s|] eqn:Hs; cbn [state tk log fst snd]; [|discriminate].
  cbn [Drag.get_scaling Drag.set_scaling Drag.scaling].
  destruct (Py.truediv (PyInt (winfo_x t)) s) eqn:Hx; cbn [state tk log fst snd]; [|discriminate].
  destruct (Py.truediv (PyInt (winfo_y t)) s); cbn [state tk log fst snd]; [|discriminate].
  intros [= <-]. cbn. exact (truediv_ok_nonzero _ _ _ Hx).
Qed.

Lemma float_of_int_raises (z : Z) (e : exn) :
  Py.float_of_int z = Raise e -> e = OverflowError.
Proof.
  unfold Py.float_of_int.
  destruct (binary_normalize prec emax z 0 false); intros [= <-]; reflexivity.
Qed.

Lemma truediv_nonzero (a : Z) (s : float) :
  PrimFloat.is_zero s = false ->
  (exists q, Py.truediv (PyInt a) s = Ok q) \/ Py.truediv (PyInt a) s = Raise OverflowError.
Proof.
  intros Hs. unfold Py.truediv. cbn [Py.to_float].
  destruct (Py.float_of_int a) as [fa|e] eqn:Ha; cbn [rbind].
  - rewrite Hs. eauto.
  - right. now rewrite (float_of_int_raises _ _ Ha).
Qed.

Lemma add_float_raises (a : num) (d : float) :
  (exists v, Py.add a (PyFloat d) = Ok v) \/ Py.add a (PyFloat d) = Raise OverflowError.
Proof.
  destruct a as [z|f]; unfold Py.add, Py.arith; cbn [Py.to_float rbind]; [|eauto].
  destruct (Py.float_of_int z) as [fz|e] eqn:Hz; cbn [rbind]; [eauto|].
  right. now rewrite (float_of_int_raises _ _ Hz).
Qed.

Lemma drag_on_motion_outcome (e : Event) (c : Ctx Drag.State T) :
  PrimFloat.is_zero (Drag.get_scaling (state c)) = false ->
  fst (Drag.on_motion e c) = Ok tt \/ fst (Drag.on_motion e c) = Raise OverflowError.
Proof.
  intros Hs. destruct c as [st t lg]. cbn [state] in Hs.
  unfold Drag.on_motion, App.delta. unfold_handler.
  destruct (truediv_nonzero (x_root e - Drag.start_root_x st) _ Hs) as [[dx ->]| ->];
    cbn [fst snd state tk log]; [|now right].
  destruct (truediv_nonzero (y_root e - Drag.start_root_y st) _ Hs) as [[dy ->]| ->];
    cbn [fst snd state tk log]; [|now right].
  destruct (Drag.beyond_threshold dx dy); unfold_handler;
    (destruct (add_float_raises (Drag.start_w_x st) dx) as [[nx ->]| ->];
       cbn [fst snd state tk log]; [|now right]);
    (destruct (add_float_raises (Drag.start_w_y st) dy) as [[ny ->]| ->];
       cbn [fst snd state tk log]; [|now right]);
    now left.
Qed.

End GestureTraces.

(** X11: each gesture keeps to its own calls.  Whatever events arrive, in
    whatever order and however many raise, the handlers of a drag only ever
    add [place], raise-to-top, [update_idletasks] and [invoke] calls to what
    was done to the widget before, and never resize it; the handlers of a
    resize only ever add [configure(width, height)] and raise-to-top calls,
    and never move or activate the widget. *)
Theorem gestures_keep_to_their_calls {T : Type} `{Toolkit T}
  (self : App.t) (inputs : list (input T)) :
  (forall c : Ctx Drag.State T,
      exists added : list call,
        log (run (drag_dispatch self) inputs c) = log c ++ added
        /\ forallb Trace.drag_call added = true)
  /\ (forall c : Ctx Resize.State T,
      exists added : list call,
        log (run (resize_dispatch self) inputs c) = log c ++ added
        /\ forallb Trace.resize_call added = true).
Proof.
  split; intros c.
  - apply run_adds_only, drag_dispatch_adds_only.
  - apply run_adds_only, resize_dispatch_adds_only.
Qed.

(** X12: a press that returns starts the gesture afresh.  Every key of the
    [state] dictionary is written by the press before it is read again, so
    what the closures remember of earlier gestures has no part in what
    follows a press that returned normally: from two contexts that differ
    only in [state], the press and everything after it leave the same
    state, the same widget and the same calls.  This holds for the handlers
    of a drag and for those of a resize. *)
Theorem press_forgets_the_previous_gesture {T : Type} `{Toolkit T}
  (self : App.t) (e : Event) (rest : list (input T)) :
  (forall c1 c2 : Ctx Drag.State T,
      tk c1 = tk c2 -> log c1 = log c2 ->
      fst (Drag.on_press e c1) = Ok tt ->
      run (drag_dispatch self) (Press e :: rest) c2 =
      run (drag_dispatch self) (Press e :: rest) c1)
  /\ (forall c1 c2 : Ctx Resize.State T,
      tk c1 = tk c2 -> log c1 = log c2 ->
      fst (Resize.on_press e c1) = Ok tt ->
      run (resize_dispatch self) (Press e :: rest) c2 =
      run (resize_dispatch self) (Press e :: rest) c1).
Proof.
  split; intros c1 c2 Ht Hl Hp; unfold run; cbn [fold_left drag_dispatch resize_dispatch].
  - now rewrite (drag_on_press_afresh e c1 c2 Ht Hl Hp).
  - now rewrite (resize_on_press_afresh e c1 c2 Ht Hl Hp).
Qed.

(** X12, witness: a button whose closure still has ["moved"] set from an
    earlier drag; the next press and release are a click, as on a button
    never dragged. *)
Lemma press_forgets_the_previous_gesture_witness :
  run (drag_dispatch (H := Sim.button) Example.app)
    [Press (Example.pointer 60 60); Release (Example.pointer 60 60)]
    (Example.dragged 50 50)
  = run (drag_dispatch (H := Sim.button) Example.app)
      [Press (Example.pointer 60 60); Release (Example.pointer 60 60)]
      (Example.draggable 50 50).
Proof.
  apply (proj1 (press_forgets_the_previous_gesture (H := Sim.button) Example.app
                  (Example.pointer 60 60) [Release (Example.pointer 60 60)])
           (Example.draggable 50 50) (Example.dragged 50 50));
    reflexivity.
Defined.

(** X13: within a drag that began with a press that returned, a move event
    never divides by zero and never fails for the scaling provider, whatever
    the display reports meanwhile: the scaling it divides by is the one of
    the press, which the press itself divided by.  The handler returns
    normally, or raises [OverflowError] when a pointer offset is too large
    for a float. *)
Theorem drag_motion_never_divides_by_zero {T : Type} `{Toolkit T}
  (self : App.t) (e0 e : Event) (ms : list (input T)) (c0 c1 : Ctx Drag.State T) :
  Drag.on_press e0 c0 = (Ok tt, c1) ->
  Forall Spec.is_move ms ->
  let c2 := run (drag_dispatch self) ms c1 in
  fst (Drag.on_motion e c2) = Ok tt \/ fst (Drag.on_motion e c2) = Raise OverflowError.
Proof.
  intros Hp Hms c2. apply drag_on_motion_outcome.
  destruct (run_moves_keeps_capture self ms c1 Hms) as (Hsc & _).
  unfold Drag.get_scaling. fold c2 in Hsc. rewrite Hsc.
  exact (drag_on_press_scaling_nonzero _ _ _ Hp).
Qed.

(** X13, witness: a press at scaling 1.0, a move, the display then reports
    the scaling 0.0; the next move event still returns. *)
Lemma drag_motion_never_divides_by_zero_witness :
  fst (Drag.on_motion (H := Sim.button) (Example.pointer 70 60)
         (run (drag_dispatch (H := Sim.button) Example.app)
            [Motion (Example.pointer 65 60); External (Sim.set_scaling (Ok 0%float))]
            (snd (Drag.on_press (H := Sim.button) (Example.pointer 60 60)
                    (Example.draggable 50 50)))))
  = Ok tt.
Proof.
  destruct (drag_motion_never_divides_by_zero (H := Sim.button) Example.app
              (Example.pointer 60 60) (Example.pointer 70 60)
              [Motion (Example.pointer 65 60); External (Sim.set_scaling (Ok 0%float))]
              (Example.draggable 50 50) _ eq_refl) as [Hok|Hov].
  - repeat constructor.
  - exact Hok.
  - vm_compute in Hov. discriminate Hov.
Defined.

(** ** Text alignment *)

(** X14: the alignment handed to the toolkit is always one of ["center"],
    ["w"], ["e"], ["n"], ["s"]; an alignment that is none of the five
    documented names (a different spelling, a different case) is not
    refused but centred; and the five documented names go to five different
    anchors. *)
Theorem unknown_alignment_is_centered (anchor : string) :
  In (Backend.tk_anchor anchor) ["center"; "w"; "e"; "n"; "s"]%string
  /\ (~ In anchor ["left"; "right"; "top"; "bottom"]%string ->
      Backend.tk_anchor anchor = "center"%string)
  /\ (forall other : string,
        In anchor (map fst Backend.anchor_map) -> In other (map fst Backend.anchor_map) ->
        Backend.tk_anchor anchor = Backend.tk_anchor other -> anchor = other).
Proof.
  unfold Backend.tk_anchor, Backend.anchor_map. cbn [Backend.dict_get map fst].
  split; [|split].
  - repeat (destruct (String.eqb _ anchor); [cbn [In]; auto 10|]). cbn [In]; auto.
  - intros Hn.
    repeat match goal with
           | |- context [String.eqb ?k anchor] =>
               destruct (String.eqb_spec k anchor) as [<-|_]
           end; try reflexivity; exfalso; apply Hn; cbn [In]; auto 10.
  - intros other Ha Ho. cbn [In] in Ha, Ho.
    repeat (destruct Ha as [<-|Ha]; [|]); try destruct Ha;
      repeat (destruct Ho as [<-|Ho]; [|]); try destruct Ho;
      cbn; intros; try reflexivity; discriminate.
Qed.

(** X14, witness: ["Left"%string], capitalised, is centred. *)
Lemma unknown_alignment_is_centered_witness :
  Backend.tk_anchor "Left"%string = "center"%string.
Proof.
  apply (proj1 (proj2 (unknown_alignment_is_centered "Left"%string))).
  cbn [In]. intros [H|[H|[H|[H|[]]]]]; discriminate H.
Defined.

(** ** Widgets and the window *)

(** X15: a widget created inside the grid lies inside the window.  For an
    App built on an integer grid size [[cols, rows]] with [gtp >= 0], a
    widget whose truncated position and size keep it within the grid
    ([0 <= x], [x + w <= cols], and the same for rows) is created with a
    pixel rectangle inside the window [App.__init__] asked for: position
    and window size are both multiples by the same [gtp]. *)
Theorem widgets_within_the_grid_fit_the_window
  (cols rows gtp : Z) (self : App.t) (x y w h : num) (ix iy iw ih : Z)
  (g : App.Geometry) :
  0 <= gtp ->
  App.init [PyInt cols; PyInt rows] gtp = Ok self ->
  Py.int x = Ok ix -> Py.int y = Ok iy -> Py.int w = Ok iw -> Py.int h = Ok ih ->
  0 <= ix -> 0 <= iy -> ix + iw <= cols -> iy + ih <= rows ->
  App.btn self [x; y] [w; h] = Ok g ->
  0 <= App.x g /\ App.x g + App.w g <= fst (App.window self)
  /\ 0 <= App.y g /\ App.y g + App.h g <= snd (App.window self).
Proof.
  intros Hgtp Hinit Hx Hy Hw Hh Px Py Bx By.
  assert (Hself : self = {| App.size_grid := [cols; rows]; App.gtp := gtp;
                            App.grid_system := GridSystem.init gtp;
                            App.window := (cols * gtp, rows * gtp) |})
    by (change (App.init [PyInt cols; PyInt rows] gtp) with
          (Ok {| App.size_grid := [cols; rows]; App.gtp := gtp;
                 App.grid_system := GridSystem.init gtp;
                 App.window := (cols * gtp, rows * gtp) |}) in Hinit; congruence).
  subst self. rewrite btn_eq. cbn [comprehension]. rewrite Hx, Hy, Hw, Hh. cbn [rbind].
  intros [= <-]. cbn [App.x App.y App.w App.h App.window App.grid_system
                      GridSystem.gtp GridSystem.init fst snd].
  repeat split; nia.
Qed.

(** X15, witness: on the 12 by 8 grid with [gtp = 50], a 2 by 1 button in
    the last cell of the last row ends at the window's corner. *)
Lemma widgets_within_the_grid_fit_the_window_witness :
  0 <= 500 /\ 500 + 100 <= 600 /\ 0 <= 350 /\ 350 + 50 <= 400.
Proof.
  exact (widgets_within_the_grid_fit_the_window 12 8 50 Example.app
           (PyInt 10) (PyFloat 7.5) (PyInt 2) (PyInt 1) 10 7 2 1
           {| App.x := 500; App.y := 350; App.w := 100; App.h := 50 |}
           ltac:(lia) eq_refl eq_refl eq_refl eq_refl eq_refl
           ltac:(lia) ltac:(lia) ltac:(lia) ltac:(lia) eq_refl).
Defined.
